(** * Content downloader: browser pool, media extractor and download orchestrator

    A shallow embedding of
      - [src/utils/browserPool.js]            (module [BrowserPool]),
      - the [page.evaluate] callback of
        [src/server/services/instagram.js]    (module [Extractor]),
      - [downloadInstagramContent] and [downloadFallbackContent] of the same
        file                                   (module [Instagram]),
    followed by the properties established about them. *)

From Stdlib Require Import List String Ascii Bool Arith NArith Lia.
Import ListNotations.
Open Scope string_scope.
Open Scope list_scope.

Set Implicit Arguments.

(** ** JavaScript strings and arrays *)

Module Js.

(** [hay.includes(needle)] *)
Fixpoint includes (needle hay : string) : bool :=
  String.prefix needle hay
  || match hay with
     | EmptyString => false
     | String _ rest => includes needle rest
     end.

(** [s.split(sep)[0]] for a one-character separator: the text before the
    first occurrence of [sep], the whole of [s] when there is none. *)
Fixpoint split_head (sep : ascii) (s : string) : string :=
  match s with
  | EmptyString => EmptyString
  | String c rest =>
      if Ascii.eqb c sep then EmptyString else String c (split_head sep rest)
  end.

(** [s.toLowerCase()] on the ASCII range (tag names are ASCII). *)
Definition lower_ascii (c : ascii) : ascii :=
  let n := nat_of_ascii c in
  if ((65 <=? n) && (n <=? 90))%nat then ascii_of_nat (n + 32) else c.

Fixpoint toLowerCase (s : string) : string :=
  match s with
  | EmptyString => EmptyString
  | String c rest => String (lower_ascii c) (toLowerCase rest)
  end.

(** Truthiness of a possibly missing string: [undefined], [null] and the
    empty string are falsy. *)
Definition truthy (v : option string) : bool :=
  match v with
  | Some s => negb (String.eqb s EmptyString)
  | None => false
  end.

(** [a || b] on possibly missing strings. *)
Definition or_else (a b : option string) : option string :=
  if truthy a then a else b.

(** [arr.pop()]: the last element and the array without it. *)
Fixpoint pop {A} (arr : list A) : option (A * list A) :=
  match arr with
  | [] => None
  | x :: rest =>
      match pop rest with
      | None => Some (x, [])
      | Some (y, rest') => Some (y, x :: rest')
      end
  end.

(** [arr.push(x)] *)
Definition push {A} (arr : list A) (x : A) : list A := arr ++ [x].

(** [arr.shift()]: the first element and the array without it. *)
Definition shift {A} (arr : list A) : option (A * list A) :=
  match arr with
  | [] => None
  | x :: rest => Some (x, rest)
  end.

End Js.

(** ** Results of fallible calls *)

(** What an awaited call yields: a value, or a thrown [Error] identified by
    its [message]. *)
Inductive Result (A : Type) : Type :=
| Ok (a : A)
| Throw (message : string).
Arguments Ok {A} a.
Arguments Throw {A} message.

(** ** src/utils/browserPool.js *)

Module BrowserPool.

(** A browser handle is identified by the order in which puppeteer
    launched it; a queued request by the order in which its promise was
    created. *)
Definition Browser := nat.
Definition Resolver := nat.

Definition MAX_BROWSERS : nat := 2.

(** The module state ([browserPool], [browserQueue]) together with what
    the module does to the outside: the number of browsers launched so far
    and the promises it has resolved, oldest first. *)
Record Pool : Type := mkPool {
  browserPool : list Browser;
  browserQueue : list Resolver;
  launched : nat;
  promises : nat;
  resolved : list (Resolver * Browser)
}.

Definition empty : Pool := mkPool [] [] 0 0 [].

(** What a call of [getBrowser] gives its caller. *)
Inductive Acquired : Type :=
| Reused (b : Browser)         (* [browserPool.pop()] *)
| Queued (r : Resolver)        (* a pending promise, resolver in the queue *)
| Launched (b : Browser)       (* a browser launched for this call *)
| LaunchFailed (message : string).

(** [launchNewBrowser]: [puppeteer.launch] either yields the next browser
    or rejects; [outcome] is what it does this time.  The launch is awaited
    after both tests of [getBrowser] have been made and touches neither
    array, so a call is modelled as one step. *)
Definition launchNewBrowser (outcome : Result unit) (p : Pool)
  : Result Browser * Pool :=
  match outcome with
  | Ok _ =>
      (Ok (launched p),
       mkPool (browserPool p) (browserQueue p) (S (launched p))
              (promises p) (resolved p))
  | Throw m => (Throw m, p)
  end.

Definition getBrowser (launch : Result unit) (p : Pool) : Acquired * Pool :=
  match Js.pop (browserPool p) with
  | Some (b, rest) =>
      (Reused b,
       mkPool rest (browserQueue p) (launched p) (promises p) (resolved p))
  | None =>
      if (MAX_BROWSERS <=? List.length (browserQueue p))%nat then
        let r := promises p in
        (Queued r,
         mkPool (browserPool p) (Js.push (browserQueue p) r) (launched p)
                (S (promises p)) (resolved p))
      else
        match launchNewBrowser launch p with
        | (Ok b, p') => (Launched b, p')
        | (Throw m, p') => (LaunchFailed m, p')
        end
  end.

(** The argument is [None] for a falsy [browser] ([undefined], [null]). *)
Definition releaseBrowser (browser : option Browser) (p : Pool) : Pool :=
  match browser with
  | Some b =>
      match Js.shift (browserQueue p) with
      | Some (nextRequester, rest) =>
          mkPool (browserPool p) rest (launched p) (promises p)
                 (resolved p ++ [(nextRequester, b)])
      | None =>
          mkPool (Js.push (browserPool p) b) (browserQueue p) (launched p)
                 (promises p) (resolved p)
      end
  | None => p
  end.

(** [closeAllBrowsers] pops (and closes) every idle browser. *)
Definition closeAllBrowsers (p : Pool) : Pool :=
  mkPool [] (browserQueue p) (launched p) (promises p) (resolved p).

(** A client of the pool, one call at a time. *)
Inductive Call : Type :=
| CallGet (launch : Result unit)
| CallRelease (browser : option Browser)
| CallCloseAll.

Definition call (c : Call) (p : Pool) : option Acquired * Pool :=
  match c with
  | CallGet launch => let (a, p') := getBrowser launch p in (Some a, p')
  | CallRelease b => (None, releaseBrowser b p)
  | CallCloseAll => (None, closeAllBrowsers p)
  end.

(** Runs the calls in order; the answers of the [getBrowser] calls are
    collected in call order. *)
Fixpoint run (cs : list Call) (p : Pool) : list Acquired * Pool :=
  match cs with
  | [] => ([], p)
  | c :: rest =>
      let (a, p1) := call c p in
      let (answers, p2) := run rest p1 in
      (match a with Some x => x :: answers | None => answers end, p2)
  end.

(** The handles a sequence of answers hands out. *)
Definition handle_of (a : Acquired) : option Browser :=
  match a with
  | Reused b | Launched b => Some b
  | Queued _ | LaunchFailed _ => None
  end.

Fixpoint handles (answers : list Acquired) : list Browser :=
  match answers with
  | [] => []
  | a :: rest =>
      match handle_of a with
      | Some b => b :: handles rest
      | None => handles rest
      end
  end.

(** Pool states the module can be in: from the empty pool by calls. *)
Inductive reachable : Pool -> Prop :=
| reach_empty : reachable empty
| reach_call c p : reachable p -> reachable (snd (call c p)).

End BrowserPool.

(** ** The media extractor: the [page.evaluate] callback of instagram.js *)

Module Extractor.

(** What the callback reads of a DOM element. *)
Record Element : Type := mkElement {
  tagName : string;
  src : option string;             (* [el.src] *)
  attr_src : option string;        (* [el.getAttribute('src')] *)
  content : option string;         (* [el.content] *)
  attr_property : option string;   (* [el.getAttribute('property')] *)
  naturalWidth : nat;
  naturalHeight : nat
}.

(** [document.querySelectorAll]: the elements a selector matches, in
    document order. *)
Definition Document := string -> list Element.

Inductive MediaKind : Type := image | video.

Record MediaCandidate : Type := mkMedia {
  url : string;
  type : MediaKind
}.

(** The double quote inside the selectors. *)
Definition dq : string := String (ascii_of_nat 34) EmptyString.

Definition selectors : list string :=
  [ "article img[srcset]";
    "article video[src]";
    ("main img[src*=" ++ dq ++ "scontent" ++ dq ++ "]")%string;
    ("main video[src*=" ++ dq ++ "scontent" ++ dq ++ "]")%string;
    ("meta[property=" ++ dq ++ "og:image" ++ dq ++ "]")%string;
    ("meta[property=" ++ dq ++ "og:video" ++ dq ++ "]")%string ].

(** [foundSources.has(src)] on the sources added so far. *)
Definition has (foundSources : list string) (s : string) : bool :=
  existsb (String.eqb s) foundSources.

Definition isThumbnail (el : Element) : bool :=
  String.eqb (Js.toLowerCase (tagName el)) "img"
  && ((naturalWidth el <? 300)%nat || (naturalHeight el <? 300)%nat).

Definition kindOf (el : Element) : MediaKind :=
  if String.eqb (Js.toLowerCase (tagName el)) "video"
     || match attr_property el with
        | Some p => String.eqb p "og:video"
        | None => false
        end
  then video else image.

(** [el.src || el.getAttribute('src') || el.content] *)
Definition sourceOf (el : Element) : option string :=
  Js.or_else (Js.or_else (src el) (attr_src el)) (content el).

(** The body of the inner [forEach], on the pair [(media, foundSources)]. *)
Definition visit (st : list MediaCandidate * list string) (el : Element)
  : list MediaCandidate * list string :=
  let (media, foundSources) := st in
  let src0 := sourceOf el in
  if Js.truthy src0 then
    match src0 with
    | Some s0 =>
        let s := Js.split_head "?"%char s0 in
        if Js.includes "scontent" s || Js.includes "instagram.com" s then
          if negb (isThumbnail el) && negb (has foundSources s) then
            (Js.push media (mkMedia s (kindOf el)), foundSources ++ [s])
          else st
        else st
    | None => st
    end
  else st.

(** The callback: both [forEach] loops, then [return media]. *)
Definition evaluate (document : Document) : list MediaCandidate :=
  fst (fold_left
         (fun st selector => fold_left visit (document selector) st)
         selectors ([], [])).

(** Every element the loops visit, in visiting order. *)
Definition matched (document : Document) : list Element :=
  flat_map document selectors.

(** The candidate an element stands for once the source, domain and size
    tests have passed; de-duplication apart. *)
Definition candidate (el : Element) : option MediaCandidate :=
  match sourceOf el with
  | Some s0 =>
      let s := Js.split_head "?"%char s0 in
      if negb (String.eqb s0 EmptyString)
         && (Js.includes "scontent" s || Js.includes "instagram.com" s)
         && negb (isThumbnail el)
      then Some (mkMedia s (kindOf el))
      else None
  | None => None
  end.

(** Whether [el] stands for a candidate of URL [u]. *)
Definition yields (u : string) (el : Element) : bool :=
  match candidate el with
  | Some c => String.eqb (url c) u
  | None => false
  end.

Definition urls (media : list MediaCandidate) : list string := map url media.

(** What one visit does to [media]. *)
Definition step (media : list MediaCandidate) (el : Element)
  : list MediaCandidate :=
  match candidate el with
  | Some c => if has (urls media) (url c) then media else media ++ [c]
  | None => media
  end.

End Extractor.

(** ** URLs as the specification reads them: the host component *)

Module SpecUrl.

(** The text after the first occurrence of [marker]. *)
Fixpoint after (marker s : string) : option string :=
  if String.prefix marker s
  then Some (String.substring (String.length marker)
                              (String.length s - String.length marker) s)
  else match s with
       | EmptyString => None
       | String _ rest => after marker rest
       end.

(** The text before the first character satisfying [stop]. *)
Fixpoint until (stop : ascii -> bool) (s : string) : string :=
  match s with
  | EmptyString => EmptyString
  | String c rest => if stop c then EmptyString else String c (until stop rest)
  end.

Definition ends_host (c : ascii) : bool :=
  Ascii.eqb c "/" || Ascii.eqb c "?" || Ascii.eqb c "#" || Ascii.eqb c ":".

(** The host component of [scheme://host[:port]/path?query#fragment]
    (URLs without a userinfo part); [None] without [://]. *)
Definition host (u : string) : option string :=
  match after "://" u with
  | Some rest => Some (until ends_host rest)
  | None => None
  end.

(** The host names one of the platform's content-delivery domains, read
    as generously as the source's two markers allow. *)
Definition host_allowed (u : string) : bool :=
  match host u with
  | Some h => Js.includes "scontent" h || Js.includes "instagram.com" h
  | None => false
  end.

End SpecUrl.

(** ** A state-and-exception monad for the asynchronous functions *)

Module Eff.

Section WithState.
Variable S : Type.

Definition M (A : Type) : Type := S -> Result A * S.

Definition ret {A} (a : A) : M A := fun st => (Ok a, st).

Definition throw {A} (message : string) : M A := fun st => (Throw message, st).

Definition bind {A B} (m : M A) (k : A -> M B) : M B :=
  fun st =>
    match m st with
    | (Ok a, st1) => k a st1
    | (Throw e, st1) => (Throw e, st1)
    end.

(** [await r] for a call that has already settled as [r]. *)
Definition await {A} (r : Result A) : M A := fun st => (r, st).

Definition modify (f : S -> S) : M unit := fun st => (Ok tt, f st).

Definition get : M S := fun st => (Ok st, st).

(** [try { m } catch (error) { handler(error.message) }] *)
Definition try_catch {A} (m : M A) (handler : string -> M A) : M A :=
  fun st =>
    match m st with
    | (Ok a, st1) => (Ok a, st1)
    | (Throw e, st1) => handler e st1
    end.

(** [try { m } finally { f }]: [f] runs on every exit of [m]; an error
    thrown by [f] replaces the completion of [m]. *)
Definition finally {A} (m : M A) (f : M unit) : M A :=
  fun st =>
    let (r, st1) := m st in
    match f st1 with
    | (Ok _, st2) => (r, st2)
    | (Throw e, st2) => (Throw e, st2)
    end.
End WithState.

End Eff.

Declare Scope eff_scope.
Delimit Scope eff_scope with eff.
Notation "x <- m ;; k" := (Eff.bind m (fun x => k))
  (at level 100, m at next level, right associativity) : eff_scope.
Notation "m ;;; k" := (Eff.bind m (fun _ => k))
  (at level 100, right associativity) : eff_scope.

(** ** src/server/services/instagram.js *)

Module Instagram.

Import BrowserPool Extractor.

(** The object a successful download returns.  [size] is the byte count
    the source renders with [formatFileSize]; [thumbnail] and [note] are
    [None] for [null] and for an absent key. *)
Record Manifest : Type := mkManifest {
  success : bool;
  downloadUrl : string;
  filename : string;
  contentType : MediaKind;
  size : N;
  localPath : string;
  thumbnail : option string;
  note : option string
}.

(** What a request does to the outside, in order. *)
Inductive Event : Type :=
| EvNewPage
| EvSetUserAgent
| EvSetViewport
| EvGoto (target : string)
| EvEvaluate
| EvGet (remote : string)          (* the axios GET *)
| EvCreateWriteStream (path : string)
| EvWrite (path : string)          (* the piped stream, to its end *)
| EvStat (path : string)
| EvUnlink (path : string)
| EvFallback                       (* [downloadFallbackContent] is entered *)
| EvPageClose
| EvRelease (b : Browser).         (* [releaseBrowser(browserInstance)] *)

(** How the calls to the outside settle during one request. *)
Record Env : Type := mkEnv {
  launch : Result unit;            (* puppeteer.launch *)
  newPage : Result unit;
  setUserAgent : Result unit;
  setViewport : Result unit;
  goto : Result unit;
  dom : Result Document;           (* page.evaluate: the DOM it runs on *)
  uuid : string;                   (* uuidv4() of the primary download *)
  get : Result unit;
  createWriteStream : Result unit;
  write : Result unit;             (* [finish] or [error] of the writer *)
  stat : Result N;
  fallback_uuid : string;          (* uuidv4() of the fallback *)
  fallback_get : Result unit;
  fallback_createWriteStream : Result unit;
  fallback_write : Result unit;
  fallback_stat : Result N;
  pageClose : Result unit
}.

(** The pool, the three [let] variables of [downloadInstagramContent] and
    the events so far (oldest first). *)
Record St : Type := mkSt {
  pool : Pool;
  browserInstance : option Browser;
  page : bool;
  downloadedFilePath : option string;
  trace : list Event
}.

Definition start (p : Pool) : St := mkSt p None false None [].

Definition M := Eff.M St.

Definition emit (e : Event) : M unit :=
  Eff.modify (fun st =>
    mkSt (pool st) (browserInstance st) (page st) (downloadedFilePath st)
         (trace st ++ [e])).

(** An awaited call to the outside: it happens, then settles. *)
Definition perform {A} (e : Event) (r : Result A) : M A :=
  (emit e ;;; Eff.await r)%eff.

Definition set_browserInstance (b : Browser) : M unit :=
  Eff.modify (fun st =>
    mkSt (pool st) (Some b) (page st) (downloadedFilePath st) (trace st)).

Definition set_page : M unit :=
  Eff.modify (fun st =>
    mkSt (pool st) (browserInstance st) true (downloadedFilePath st)
         (trace st)).

Definition set_downloadedFilePath (path : string) : M unit :=
  Eff.modify (fun st =>
    mkSt (pool st) (browserInstance st) (page st) (Some path) (trace st)).

(** [path.join] of a directory and a file name. *)
Definition path_join (dir file : string) : string := (dir ++ "/" ++ file)%string.

Definition served (filename : string) : string :=
  ("http://localhost:3001/downloads/" ++ filename)%string.

(** The write stream is created and the response piped into it; on the
    writer's [error] event the partial file is unlinked and the awaited
    promise rejects. *)
Definition stream_to (filePath : string) (created r : Result unit) : M unit :=
  (perform (EvCreateWriteStream filePath) created ;;;
   emit (EvWrite filePath) ;;;
   match r with
   | Ok _ => Eff.ret tt
   | Throw e => emit (EvUnlink filePath) ;;; Eff.throw e
   end)%eff.

Definition sampleUrls (k : MediaKind) : string :=
  match k with
  | image => "https://picsum.photos/800/600"
  | video => "https://sample-videos.com/zip/10/mp4/SampleVideo_1280x720_1mb.mp4"
  end.

(** [contentType === 'reel' || contentType === 'story' || contentType === 'video'] *)
Definition isVideo (contentType : string) : bool :=
  String.eqb contentType "reel" || String.eqb contentType "story"
  || String.eqb contentType "video".

Definition fallbackNote : string :=
  "Fallback content - real social media content may be difficult to scrape.".

Definition downloadFallbackContent
           (contentType downloadsDir platform : string) (env : Env)
  : M Manifest :=
  Eff.try_catch
    (emit EvFallback ;;;
     let mediaType := if isVideo contentType then video else image in
     let fileExtension := if isVideo contentType then "mp4" else "jpg" in
     let filename :=
       (platform ++ "_" ++ contentType ++ "_fallback_" ++ fallback_uuid env
          ++ "." ++ fileExtension)%string in
     let filePath := path_join downloadsDir filename in
     perform (EvGet (sampleUrls mediaType)) (fallback_get env) ;;;
     stream_to filePath (fallback_createWriteStream env) (fallback_write env) ;;;
     bytes <- perform (EvStat filePath) (fallback_stat env) ;;
     Eff.ret (mkManifest true (served filename) filename mediaType bytes
                         filePath
                         (match mediaType with
                          | image => Some (served filename)
                          | video => None
                          end)
                         (Some fallbackNote)))%eff
    (fun message =>
       Eff.throw ("Fallback download failed: " ++ message)%string).

Definition noMedia : string :=
  "No media found in Instagram post for given URL.".

(** The [try] block; [acquired] is what [await getBrowser()] yields. *)
Definition primary (target contentType downloadsDir : string) (env : Env)
           (acquired : Result Browser) : M Manifest :=
  (b <- Eff.await acquired ;;
   set_browserInstance b ;;;
   perform EvNewPage (newPage env) ;;;
   set_page ;;;
   perform EvSetUserAgent (setUserAgent env) ;;;
   perform EvSetViewport (setViewport env) ;;;
   perform (EvGoto target) (goto env) ;;;
   (* the waits for selectors and the login dialog swallow their errors *)
   document <- perform EvEvaluate (dom env) ;;
   match evaluate document with
   | [] => Eff.throw noMedia
   | media :: _ =>
       let fileExtension :=
         match type media with video => "mp4" | image => "jpg" end in
       let filename :=
         ("instagram_" ++ contentType ++ "_" ++ uuid env ++ "."
            ++ fileExtension)%string in
       let filePath := path_join downloadsDir filename in
       set_downloadedFilePath filePath ;;;
       perform (EvGet (url media)) (get env) ;;;
       stream_to filePath (createWriteStream env) (write env) ;;;
       bytes <- perform (EvStat filePath) (stat env) ;;
       Eff.ret (mkManifest true (served filename) filename (type media)
                           bytes filePath
                           (match type media with
                            | image => Some (served filename)
                            | video => None
                            end)
                           None)
   end)%eff.

Definition primaryNote (message : string) : string :=
  ("Primary download failed: " ++ message ++ ". Serving fallback content.")%string.

Definition bothFailed (message : string) : string :=
  ("Failed to download content from Instagram or provide fallback: "
     ++ message)%string.

(** The catch block up to the fallback: the partial file, if any, is
    unlinked; errors of the unlink are swallowed. *)
Definition discard_partial : M unit :=
  (st <- @Eff.get St ;;
   match downloadedFilePath st with
   | Some path => emit (EvUnlink path)
   | None => Eff.ret tt
   end)%eff.

(** [{ ...m, note }] *)
Definition with_note (m : Manifest) (text : string) : Manifest :=
  match m with
  | mkManifest s d f c bytes path thumb _ =>
      mkManifest s d f c bytes path thumb (Some text)
  end.

(** The [catch (error)] block; [message] is [error.message]. *)
Definition recover (contentType downloadsDir : string) (env : Env)
           (message : string) : M Manifest :=
  (discard_partial ;;;
   Eff.try_catch
     (fallbackResult <-
        downloadFallbackContent contentType downloadsDir "instagram" env ;;
      Eff.ret (with_note fallbackResult (primaryNote message)))
     (fun fallbackError => Eff.throw (bothFailed message)))%eff.

(** The [finally] block. *)
Definition cleanup (env : Env) : M unit :=
  (st <- @Eff.get St ;;
   (if page st then perform EvPageClose (pageClose env) else Eff.ret tt) ;;;
   match browserInstance st with
   | Some b =>
       emit (EvRelease b) ;;;
       Eff.modify (fun st =>
         mkSt (releaseBrowser (Some b) (pool st)) (browserInstance st)
              (page st) (downloadedFilePath st) (trace st))
   | None => Eff.ret tt
   end)%eff.

(** [downloadInstagramContent] from the point where [await getBrowser()]
    has settled. *)
Definition settle (target contentType downloadsDir : string) (env : Env)
           (acquired : Result Browser) : M Manifest :=
  Eff.finally
    (Eff.try_catch (primary target contentType downloadsDir env acquired)
                   (recover contentType downloadsDir env))
    (cleanup env).

(** A request either settles, or waits on the promise [getBrowser] gave
    it until some [releaseBrowser] resolves it. *)
Inductive Task : Type :=
| Settled (r : Result Manifest) (st : St)
| Waiting (r : Resolver) (st : St).

Definition downloadInstagramContent
           (target contentType downloadsDir : string) (env : Env) (p : Pool)
  : Task :=
  let go acquired p' :=
    let (r, st) :=
      settle target contentType downloadsDir env acquired (start p') in
    Settled r st in
  match getBrowser (launch env) p with
  | (Reused b, p') => go (Ok b) p'
  | (Launched b, p') => go (Ok b) p'
  | (LaunchFailed m, p') => go (Throw m) p'
  | (Queued r, p') => Waiting r (start p')
  end.

(** The state a request has reached, and its result once settled. *)
Definition final (t : Task) : St :=
  match t with Settled _ st => st | Waiting _ st => st end.

Definition outcome (t : Task) : option (Result Manifest) :=
  match t with Settled r _ => Some r | Waiting _ _ => None end.

(** Reading a trace. *)
Definition isRelease (e : Event) : bool :=
  match e with EvRelease _ => true | _ => false end.

Definition isFallback (e : Event) : bool :=
  match e with EvFallback => true | _ => false end.

(** Neither a release nor the entry of the fallback. *)
Definition quiet (e : Event) : bool := negb (isRelease e) && negb (isFallback e).

(** The position of the first event satisfying [f]. *)
Fixpoint position (f : Event -> bool) (events : list Event) : option nat :=
  match events with
  | [] => None
  | e :: rest =>
      if f e then Some 0 else option_map S (position f rest)
  end.

End Instagram.

(** ** Pages and requests used as concrete inputs *)

Module Fixtures.

Import Extractor.

Definition img (source : string) (w h : nat) : Element :=
  mkElement "IMG" (Some source) (Some source) None None w h.

(** A page on which only ['article img[srcset]'] matches, and matches
    exactly [els]. *)
Definition article_images (els : list Element) : Document :=
  fun selector =>
    if String.eqb selector "article img[srcset]" then els else [].

(** A page without any media. *)
Definition blank : Document := fun _ => [].

(** One CDN picture, rendered twice at thumbnail size under URLs that
    differ only in their query string. *)
Definition thumbnails : Document :=
  article_images
    [ img "https://scontent.cdninstagram.com/v/t51/photo.jpg?stp=s150x150" 150 150;
      img "https://scontent.cdninstagram.com/v/t51/photo.jpg?stp=s240x240" 240 240 ].

(** The same picture twice at full size. *)
Definition duplicates : Document :=
  article_images
    [ img "https://scontent.cdninstagram.com/v/t51/photo.jpg?stp=a" 1080 1080;
      img "https://scontent.cdninstagram.com/v/t51/photo.jpg?stp=b" 1080 1350 ].

(** A full-size picture served by another host from a path that spells
    [instagram.com]. *)
Definition offsite : Document :=
  article_images [ img "https://evil.example/instagram.com/a.jpg?x=1" 1080 1080 ].

Import Instagram.

(** Every call to the outside succeeds on a page with one picture. *)
Definition fine : Env :=
  mkEnv (Ok tt) (Ok tt) (Ok tt) (Ok tt) (Ok tt) (Ok duplicates) "1111"
        (Ok tt) (Ok tt) (Ok tt) (Ok 2048%N)
        "2222" (Ok tt) (Ok tt) (Ok tt) (Ok 4096%N)
        (Ok tt).

(** Navigation times out; the fallback succeeds. *)
Definition navigation_timeout : Env :=
  mkEnv (Ok tt) (Ok tt) (Ok tt) (Ok tt)
        (Throw "Navigation timeout of 45000 ms exceeded") (Ok blank) "1111"
        (Ok tt) (Ok tt) (Ok tt) (Ok 2048%N)
        "2222" (Ok tt) (Ok tt) (Ok tt) (Ok 4096%N)
        (Ok tt).

(** The page holds no media and the substitute asset cannot be fetched. *)
Definition nothing_works : Env :=
  mkEnv (Ok tt) (Ok tt) (Ok tt) (Ok tt) (Ok tt) (Ok blank) "1111"
        (Ok tt) (Ok tt) (Ok tt) (Ok 2048%N)
        "2222" (Throw "connect ETIMEDOUT") (Ok tt) (Ok tt) (Ok 4096%N)
        (Ok tt).

Definition post_url : string := "https://www.instagram.com/p/Cabc123/".

Definition downloads : string := "/srv/downloads".

End Fixtures.

(** ** More of JavaScript's strings *)

Module JsMore.

(** White space of the ASCII range: tab, line feed, vertical tab, form
    feed, carriage return and space. *)
Definition isSpace (c : ascii) : bool :=
  let n := nat_of_ascii c in
  (((9 <=? n) && (n <=? 13)) || (n =? 32))%nat.

Fixpoint trimStart (s : string) : string :=
  match s with
  | EmptyString => EmptyString
  | String c rest => if isSpace c then trimStart rest else s
  end.

(** [s.trim() === ''] : nothing is left once the leading white space is
    gone. *)
Definition trimsToEmpty (s : string) : bool :=
  String.eqb (trimStart s) EmptyString.

(** [s.startsWith(p)] *)
Definition startsWith (p s : string) : bool := String.prefix p s.

(** [arr.includes(x)] on an array of strings. *)
Definition arrayIncludes (arr : list string) (x : string) : bool :=
  existsb (String.eqb x) arr.

(** [arr.join(sep)] *)
Definition join (sep : string) (arr : list string) : string :=
  String.concat sep arr.

End JsMore.

(** ** [closeAllBrowsers] of browserPool.js, pop by pop *)

Module Shutdown.

Import BrowserPool.

(** The loop of [closeAllBrowsers] on the idle browsers still to visit,
    last pushed first.  [isConnected] answers [browser.isConnected()],
    [close] is how [browser.close()] settles for each browser; the result
    is the error that ended the loop, if any, the browsers left in
    [browserPool] and the browsers closed, in closing order. *)
Fixpoint closing (isConnected : Browser -> bool)
         (close : Browser -> Result unit)
         (visiting : list Browser) (closed : list Browser)
  : Result unit * list Browser * list Browser :=
  match visiting with
  | [] => (Ok tt, [], closed)
  | browser :: rest =>
      if isConnected browser then
        match close browser with
        | Ok _ => closing isConnected close rest (closed ++ [browser])
        | Throw e => (Throw e, rev rest, closed)
        end
      else closing isConnected close rest closed
  end.

(** [closeAllBrowsers]: [browserPool.pop()] visits the idle browsers from
    the end of the array. *)
Definition closeAllBrowsers (isConnected : Browser -> bool)
           (close : Browser -> Result unit) (p : Pool)
  : Result unit * Pool * list Browser :=
  match closing isConnected close (rev (browserPool p)) [] with
  | (r, remaining, closed) =>
      (r,
       mkPool remaining (browserQueue p) (launched p) (promises p)
              (resolved p),
       closed)
  end.

End Shutdown.

(** ** src/server/services/testContent.js *)

Module TestContent.

Import Extractor Instagram.

(** The keys of the table [testContent], which are also
    [validContentTypes]. *)
Inductive Key : Type := post | story | reel | highlight.

Definition keyName (k : Key) : string :=
  match k with
  | post => "post" | story => "story" | reel => "reel"
  | highlight => "highlight"
  end.

(** [validContentTypes.includes(contentType)], with the key it names. *)
Definition keyOf (contentType : string) : option Key :=
  if String.eqb contentType "post" then Some post
  else if String.eqb contentType "story" then Some story
  else if String.eqb contentType "reel" then Some reel
  else if String.eqb contentType "highlight" then Some highlight
  else None.

Definition postImage : string := "https://picsum.photos/800/600?random=1".

(** The table [testContent]: for each key its [image] and its [video]
    entry. *)
Definition testContent (k : Key) : option string * option string :=
  match k with
  | post =>
      (Some postImage,
       Some "http://commondatastorage.googleapis.com/gtv-videos-bucket/sample/BigBuckBunny.mp4")
  | story =>
      (Some "https://picsum.photos/600/800?random=2",
       Some "http://commondatastorage.googleapis.com/gtv-videos-bucket/sample/ElephantsDream.mp4")
  | reel =>
      (None,
       Some "http://commondatastorage.googleapis.com/gtv-videos-bucket/sample/ForBiggerJoyrides.mp4")
  | highlight =>
      (Some "https://picsum.photos/600/600?random=3",
       Some "http://commondatastorage.googleapis.com/gtv-videos-bucket/sample/Sintel.mp4")
  end.

(** [entry[mediaType]] *)
Definition pick (entry : option string * option string) (k : MediaKind)
  : option string :=
  match k with image => fst entry | video => snd entry end.

Definition placeholder : string :=
  "https://via.placeholder.com/300x300?text=Video+Test".

Definition testNote : string :=
  "Test content for demonstration and development purposes".

(** [let downloadedFilePath = null] *)
Definition clear_downloadedFilePath : M unit :=
  Eff.modify (fun st =>
    mkSt (pool st) (browserInstance st) (page st) None (trace st)).

(** The choice of [contentType], [mediaType] and [mediaUrl]; [coin] is
    [Math.random() > 0.5]. *)
Definition choose (contentType : string) (coin : bool)
  : Key * MediaKind * string :=
  let contentType :=
    match keyOf contentType with Some k => k | None => post end in
  let chosen :=
    match contentType with
    | reel | highlight => (video, snd (testContent contentType))
    | _ =>
        let mediaType := if coin then video else image in
        (mediaType, pick (testContent contentType) mediaType)
    end in
  match chosen with
  | (mediaType, Some mediaUrl) =>
      if String.eqb mediaUrl EmptyString
      then (contentType, image, postImage)
      else (contentType, mediaType, mediaUrl)
  | (_, None) => (contentType, image, postImage)
  end.

Definition downloadTestContent (target contentType downloadsDir : string)
           (coin : bool) (env : Env) : M Manifest :=
  (clear_downloadedFilePath ;;;
   Eff.try_catch
     (let '(contentType, mediaType, mediaUrl) := choose contentType coin in
      let fileExtension :=
        match mediaType with video => "mp4" | image => "jpg" end in
      let filename :=
        ("test_" ++ keyName contentType ++ "_" ++ uuid env ++ "."
           ++ fileExtension)%string in
      let filePath := path_join downloadsDir filename in
      set_downloadedFilePath filePath ;;;
      perform (EvGet mediaUrl) (get env) ;;;
      stream_to filePath (createWriteStream env) (write env) ;;;
      bytes <- perform (EvStat filePath) (stat env) ;;
      Eff.ret (mkManifest true (served filename) filename mediaType bytes
                          filePath
                          (match mediaType with
                           | image => Some (served filename)
                           | video => Some placeholder
                           end)
                          (Some testNote)))
     (fun message =>
        discard_partial ;;;
        Eff.throw ("Test download failed: " ++ message)%string))%eff.

End TestContent.

(** ** The server: the download and delete routes and the error middleware *)

(** Strings of a request are taken in the ASCII range: [toLowerCase] acts
    on the letters A to Z and [trim] on the ASCII white space. *)

Module Server.

(** A field of the JSON body as the validation sees it: a string, or
    anything else (absent, [null], a number, an object...), which fails
    [!v || typeof v !== 'string'] whatever it is. *)
Inductive Field : Type :=
| NotAString
| Str (s : string).

Record Body : Type := mkBody {
  url : Field;
  platform : Field;
  contentType : Field
}.

(** An error object as the middleware reads it. *)
Record Err : Type := mkErr {
  message : string;
  statusCode : option nat;
  code : option string
}.

(** What a route answers. *)
Inductive Reply : Type :=
| Sent (result : Instagram.Manifest)
    (* [res.json(result)] *)
| Refused (status : nat) (error : string)
    (* [res.status(status).json({ error })] *)
| Deleted
    (* [res.json({ success: true, message: 'File deleted successfully' })] *)
| Report (status : nat) (text : string) (details : option string)
         (errorCode : option string).
    (* the error middleware's [{ error: true, message, details, code }] *)

Inductive Service : Type :=
| TestService          (* downloadTestContent *)
| InstagramService     (* downloadInstagramContent *)
| FacebookService.     (* downloadFacebookContent *)

Definition allowedPlatforms : list string := [ "instagram"; "facebook"; "test" ].

Definition allowedContentTypes : list string :=
  [ "image"; "video"; "reel"; "story" ].

Definition urlRequired : string :=
  "URL is required and must be a non-empty string.".

Definition urlFormat : string :=
  "Invalid URL format. Must start with http:// or https://".

Definition platformRequired : string :=
  ("Platform is required and must be one of: "
     ++ JsMore.join ", " allowedPlatforms ++ ".")%string.

Definition contentTypeRequired : string :=
  ("ContentType is required and must be one of: "
     ++ JsMore.join ", " allowedContentTypes ++ ".")%string.

Definition unsupported : string := "Unsupported platform.".

(** The route up to the call of a service: an answer, or the service to
    call with its [url] and lower-cased [contentType]. *)
Inductive Checked : Type :=
| Answer (r : Reply)
| Call (service : Service) (target : string) (lowerCaseContentType : string).

Definition check (body : Body) : Checked :=
  match url body with
  | NotAString => Answer (Refused 400 urlRequired)
  | Str u =>
      if String.eqb u EmptyString || JsMore.trimsToEmpty u
      then Answer (Refused 400 urlRequired)
      else if negb (JsMore.startsWith "http://" u)
              && negb (JsMore.startsWith "https://" u)
      then Answer (Refused 400 urlFormat)
      else
        match platform body with
        | NotAString => Answer (Refused 400 platformRequired)
        | Str p =>
            if String.eqb p EmptyString
               || negb (JsMore.arrayIncludes allowedPlatforms
                                             (Js.toLowerCase p))
            then Answer (Refused 400 platformRequired)
            else
              match contentType body with
              | NotAString => Answer (Refused 400 contentTypeRequired)
              | Str c =>
                  if String.eqb c EmptyString
                     || negb (JsMore.arrayIncludes allowedContentTypes
                                                   (Js.toLowerCase c))
                  then Answer (Refused 400 contentTypeRequired)
                  else
                    let lowerCasePlatform := Js.toLowerCase p in
                    let lowerCaseContentType := Js.toLowerCase c in
                    if Js.includes "test-content" u || Js.includes "demo" u
                       || String.eqb lowerCasePlatform "test"
                    then Call TestService u lowerCaseContentType
                    else if String.eqb lowerCasePlatform "instagram"
                    then Call InstagramService u lowerCaseContentType
                    else if String.eqb lowerCasePlatform "facebook"
                    then Call FacebookService u lowerCaseContentType
                    else Answer (Refused 400 unsupported)
              end
        end
  end.

Definition unexpected : string := "An unexpected error occurred on the server.".

(** The error middleware; [nodeEnv] is [process.env.NODE_ENV]. *)
Definition errorMiddleware (nodeEnv : option string) (err : Err) : Reply :=
  let status :=
    match statusCode err with
    | Some 0 | None => 500
    | Some n => n
    end in
  let text := if (status =? 500)%nat then unexpected else message err in
  Report status text
         (match nodeEnv with
          | Some e => if String.eqb e "development"
                      then Some (message err) else None
          | None => None
          end)
         (match code err with
          | Some c => if String.eqb c EmptyString then None else Some c
          | None => None
          end).

(** The errors the services throw are made with [new Error(message)]:
    they carry neither a [statusCode] nor a [code]. *)
Definition thrown (text : string) : Err := mkErr text None None.

(** [POST /api/download]; [services] is how the called service settles. *)
Definition download (nodeEnv : option string)
           (services : Service -> string -> string -> Result Instagram.Manifest)
           (body : Body) : Reply :=
  match check body with
  | Answer r => r
  | Call service target lowerCaseContentType =>
      match services service target lowerCaseContentType with
      | Ok result => Sent result
      | Throw text => errorMiddleware nodeEnv (thrown text)
      end
  end.

(** The characters of [/^[a-zA-Z0-9_\-\.]+$/]. *)
Definition isNameChar (c : ascii) : bool :=
  let n := nat_of_ascii c in
  (((97 <=? n) && (n <=? 122)) || ((65 <=? n) && (n <=? 90))
   || ((48 <=? n) && (n <=? 57)) || (n =? 95) || (n =? 45) || (n =? 46))%nat.

Fixpoint allChars (f : ascii -> bool) (s : string) : bool :=
  match s with
  | EmptyString => true
  | String c rest => f c && allChars f rest
  end.

(** [/^[a-zA-Z0-9_\-\.]+$/.test(s)] *)
Definition namePattern (s : string) : bool :=
  negb (String.eqb s EmptyString) && allChars isNameChar s.

Definition traversal : string :=
  "Invalid filename. Path traversal attempts detected.".

Definition badCharacters : string := "Invalid filename characters.".

(** How a call to the file system settles. *)
Inductive Outcome : Type :=
| Done
| Fails (err : Err).

Inductive FsCall : Type :=
| Access (path : string)
| Unlink (path : string).

Definition isENOENT (err : Err) : bool :=
  match code err with
  | Some c => String.eqb c "ENOENT"
  | None => false
  end.

(** [DELETE /api/downloads/:filename] on a POSIX host ([path.isAbsolute]
    is a leading slash); the answer and the file system calls made. *)
Definition deleteFile (nodeEnv : option string) (downloadsDir : string)
           (access unlink : Outcome) (filename : string)
  : Reply * list FsCall :=
  if Js.includes "/" filename || Js.includes ".." filename
     || JsMore.startsWith "/" filename
  then (Refused 400 traversal, [])
  else if negb (namePattern filename)
  then (Refused 400 badCharacters, [])
  else
    let filePath := Instagram.path_join downloadsDir filename in
    let failed err :=
      if isENOENT err then Refused 404 "File not found"
      else errorMiddleware nodeEnv err in
    match access with
    | Fails err => (failed err, [Access filePath])
    | Done =>
        match unlink with
        | Fails err => (failed err, [Access filePath; Unlink filePath])
        | Done => (Deleted, [Access filePath; Unlink filePath])
        end
    end.

End Server.

(** ** src/src/api.ts: [requestDownload] *)

Module Api.

Import Server.

Definition statusOf (r : Reply) : nat :=
  match r with
  | Sent _ | Deleted => 200
  | Refused status _ => status
  | Report status _ _ _ => status
  end.

(** [response.ok] *)
Definition ok (r : Reply) : bool :=
  ((200 <=? statusOf r) && (statusOf r <=? 299))%nat.

(** The [message] key of the JSON body, if it has one. *)
Definition messageOf (r : Reply) : option string :=
  match r with
  | Report _ text _ _ => Some text
  | Deleted => Some "File deleted successfully"
  | Sent _ | Refused _ _ => None
  end.

(** [requestDownload]; [fetched] is how [fetch] settles: the server's
    answer, or a network error.  A response that is not [ok] is thrown as
    [new Error(error.message || 'Download request failed')]. *)
Definition requestDownload (fetched : Result Reply) : Result Reply :=
  match fetched with
  | Throw e => Throw e
  | Ok response =>
      if ok response then Ok response
      else Throw (match messageOf response with
                  | Some text =>
                      if String.eqb text EmptyString
                      then "Download request failed" else text
                  | None => "Download request failed"
                  end)
  end.

End Api.

(** ** The extractor's result, said without the loops *)

Module ExtractorSpec.

Import Extractor.

(** The candidates the matched elements stand for, in visiting order. *)
Definition candidates (els : list Element) : list MediaCandidate :=
  flat_map (fun el => match candidate el with
                      | Some c => [c]
                      | None => []
                      end) els.

(** Keeps, of several candidates with one URL, the first. *)
Fixpoint keepFirst (seen : list string) (cs : list MediaCandidate)
  : list MediaCandidate :=
  match cs with
  | [] => []
  | c :: rest =>
      if has seen (url c) then keepFirst seen rest
      else c :: keepFirst (seen ++ [url c]) rest
  end.

(** The first element that stands for a candidate, as that candidate. *)
Fixpoint firstCandidate (els : list Element) : option MediaCandidate :=
  match els with
  | [] => None
  | el :: rest =>
      match candidate el with
      | Some c => Some c
      | None => firstCandidate rest
      end
  end.

End ExtractorSpec.

(** ** More concrete inputs *)

Module MoreFixtures.

Import Extractor Instagram.

(** The media is found but the CDN refuses the download; the fallback
    succeeds. *)
Definition fetch_refused : Env :=
  mkEnv (Ok tt) (Ok tt) (Ok tt) (Ok tt) (Ok tt) (Ok Fixtures.duplicates)
        "1111"
        (Throw "Request failed with status code 403") (Ok tt) (Ok tt)
        (Ok 2048%N)
        "2222" (Ok tt) (Ok tt) (Ok tt) (Ok 4096%N)
        (Ok tt).

(** Everything succeeds until the page is closed. *)
Definition close_fails : Env :=
  mkEnv (Ok tt) (Ok tt) (Ok tt) (Ok tt) (Ok tt) (Ok Fixtures.duplicates)
        "1111"
        (Ok tt) (Ok tt) (Ok tt) (Ok 2048%N)
        "2222" (Ok tt) (Ok tt) (Ok tt) (Ok 4096%N)
        (Throw "Protocol error: Connection closed.").

(** No browser can be launched; the fallback succeeds. *)
Definition no_browser : Env :=
  mkEnv (Throw "Failed to launch the browser process!") (Ok tt) (Ok tt)
        (Ok tt) (Ok tt) (Ok Fixtures.duplicates) "1111"
        (Ok tt) (Ok tt) (Ok tt) (Ok 2048%N)
        "2222" (Ok tt) (Ok tt) (Ok tt) (Ok 4096%N)
        (Ok tt).


(** A version-4 UUID. *)
Definition uuid4 : string := "3b241101-e2bb-4255-8caf-4136c566a962".

Definition uuid4' : string := "9f1c2d3e-0a4b-4c5d-8e6f-7a8b9c0d1e2f".

(** Every call succeeds, with UUIDs as [uuidv4] makes them. *)
Definition fine_uuid : Env :=
  mkEnv (Ok tt) (Ok tt) (Ok tt) (Ok tt) (Ok tt) (Ok Fixtures.duplicates)
        uuid4
        (Ok tt) (Ok tt) (Ok tt) (Ok 2048%N)
        uuid4' (Ok tt) (Ok tt) (Ok tt) (Ok 4096%N)
        (Ok tt).

End MoreFixtures.

(** ** What [uuidv4()] returns *)

Module Uuid.

(** The characters of a UUID in its canonical form: lower-case
    hexadecimal digits and hyphens. *)
Definition isUuidChar (c : ascii) : bool :=
  let n := nat_of_ascii c in
  (((48 <=? n) && (n <=? 57)) || ((97 <=? n) && (n <=? 102)) || (n =? 45))%nat.

Definition wellFormed (s : string) : bool := Server.allChars isUuidChar s.

End Uuid.

(** ** Request bodies used as concrete inputs *)

Module Bodies.

Import Server.

(** What the download form sends by default: its content type is [post]. *)
Definition form_default : Body :=
  mkBody (Str "https://www.instagram.com/p/Cabc123/") (Str "instagram")
         (Str "post").

(** A reel whose short code happens to spell [demo]. *)
Definition demo_reel : Body :=
  mkBody (Str "https://www.instagram.com/reel/Cdemo42/") (Str "Instagram")
         (Str "Reel").

Definition story : Body :=
  mkBody (Str "https://www.instagram.com/stories/someone/1/")
         (Str "instagram") (Str "story").

End Bodies.

(** ** src/server/services/facebook.js *)

Module Facebook.

Import BrowserPool Extractor Instagram.

Definition selectors : list string :=
  [ ("video[src*=" ++ dq ++ ".mp4" ++ dq ++ "]")%string;
    ("img[src*=" ++ dq ++ ".jpg" ++ dq ++ "]")%string;
    "div[data-imgperflog] > img";
    ("div[data-visualcompletion=" ++ dq ++ "media-vc" ++ dq ++ "] img")%string;
    ("div[data-visualcompletion=" ++ dq ++ "media-vc" ++ dq ++ "] video")%string;
    ("a[href*=" ++ dq ++ "/videos/" ++ dq ++ "] img")%string;
    ("a[href*=" ++ dq ++ "/photos/" ++ dq ++ "] img")%string;
    ("meta[property=" ++ dq ++ "og:image" ++ dq ++ "]")%string;
    ("meta[property=" ++ dq ++ "og:video" ++ dq ++ "]")%string ].

(** The body of the inner [forEach], on the pair [(media, foundSources)]. *)
Definition visit (st : list MediaCandidate * list string) (el : Element)
  : list MediaCandidate * list string :=
  let (media, foundSources) := st in
  let src0 := sourceOf el in
  if Js.truthy src0 then
    match src0 with
    | Some s0 =>
        let s := Js.split_head "?"%char s0 in
        if Js.includes "fbcdn.net" s || Js.includes "facebook.com" s then
          if negb (has foundSources s) then
            (Js.push media (mkMedia s (kindOf el)), foundSources ++ [s])
          else st
        else st
    | None => st
    end
  else st.

(** The [page.evaluate] callback. *)
Definition evaluate (document : Document) : list MediaCandidate :=
  fst (fold_left
         (fun st selector => fold_left visit (document selector) st)
         selectors ([], [])).

Definition matched (document : Document) : list Element :=
  flat_map document selectors.

(** The candidate an element stands for once the source and domain tests
    have passed; there is no size test. *)
Definition candidate (el : Element) : option MediaCandidate :=
  match sourceOf el with
  | Some s0 =>
      let s := Js.split_head "?"%char s0 in
      if negb (String.eqb s0 EmptyString)
         && (Js.includes "fbcdn.net" s || Js.includes "facebook.com" s)
      then Some (mkMedia s (kindOf el))
      else None
  | None => None
  end.

Definition yields (u : string) (el : Element) : bool :=
  match candidate el with
  | Some c => String.eqb (url c) u
  | None => false
  end.

Definition step (media : list MediaCandidate) (el : Element)
  : list MediaCandidate :=
  match candidate el with
  | Some c => if has (urls media) (url c) then media else media ++ [c]
  | None => media
  end.

Definition sampleUrls (k : MediaKind) : string :=
  match k with
  | image => "https://picsum.photos/800/600"
  | video => "https://sample-videos.com/zip/10/mp4/SampleVideo_1280x720_2mb.mp4"
  end.

Definition downloadFallbackContent
           (contentType downloadsDir platform : string) (env : Env)
  : M Manifest :=
  Eff.try_catch
    (emit EvFallback ;;;
     let mediaType := if isVideo contentType then video else image in
     let fileExtension := if isVideo contentType then "mp4" else "jpg" in
     let filename :=
       (platform ++ "_" ++ contentType ++ "_fallback_" ++ fallback_uuid env
          ++ "." ++ fileExtension)%string in
     let filePath := path_join downloadsDir filename in
     perform (EvGet (sampleUrls mediaType)) (fallback_get env) ;;;
     stream_to filePath (fallback_createWriteStream env) (fallback_write env) ;;;
     bytes <- perform (EvStat filePath) (fallback_stat env) ;;
     Eff.ret (mkManifest true (served filename) filename mediaType bytes
                         filePath
                         (match mediaType with
                          | image => Some (served filename)
                          | video => None
                          end)
                         (Some fallbackNote)))%eff
    (fun message =>
       Eff.throw ("Fallback download failed: " ++ message)%string).

Definition noMedia : string :=
  "No media found in Facebook post for given URL.".

(** The [try] block; [acquired] is what [await getBrowser()] yields. *)
Definition primary (target contentType downloadsDir : string) (env : Env)
           (acquired : Result Browser) : M Manifest :=
  (b <- Eff.await acquired ;;
   set_browserInstance b ;;;
   perform EvNewPage (newPage env) ;;;
   set_page ;;;
   perform EvSetUserAgent (setUserAgent env) ;;;
   perform EvSetViewport (setViewport env) ;;;
   perform (EvGoto target) (goto env) ;;;
   (* the wait for the main content swallows its error *)
   document <- perform EvEvaluate (dom env) ;;
   match evaluate document with
   | [] => Eff.throw noMedia
   | media :: _ =>
       let fileExtension :=
         match type media with video => "mp4" | image => "jpg" end in
       let filename :=
         ("facebook_" ++ contentType ++ "_" ++ uuid env ++ "."
            ++ fileExtension)%string in
       let filePath := path_join downloadsDir filename in
       set_downloadedFilePath filePath ;;;
       perform (EvGet (url media)) (get env) ;;;
       stream_to filePath (createWriteStream env) (write env) ;;;
       bytes <- perform (EvStat filePath) (stat env) ;;
       Eff.ret (mkManifest true (served filename) filename (type media)
                           bytes filePath
                           (match type media with
                            | image => Some (served filename)
                            | video => None
                            end)
                           None)
   end)%eff.

Definition bothFailed (message : string) : string :=
  ("Failed to download content from Facebook or provide fallback: "
     ++ message)%string.

(** The [catch (error)] block; [message] is [error.message]. *)
Definition recover (contentType downloadsDir : string) (env : Env)
           (message : string) : M Manifest :=
  (discard_partial ;;;
   Eff.try_catch
     (fallbackResult <-
        downloadFallbackContent contentType downloadsDir "facebook" env ;;
      Eff.ret (with_note fallbackResult (primaryNote message)))
     (fun fallbackError => Eff.throw (bothFailed message)))%eff.

(** [downloadFacebookContent] from the point where [await getBrowser()]
    has settled; the [finally] block is the one of the Instagram
    service. *)
Definition settle (target contentType downloadsDir : string) (env : Env)
           (acquired : Result Browser) : M Manifest :=
  Eff.finally
    (Eff.try_catch (primary target contentType downloadsDir env acquired)
                   (recover contentType downloadsDir env))
    (cleanup env).

Definition downloadFacebookContent
           (target contentType downloadsDir : string) (env : Env) (p : Pool)
  : Task :=
  let go acquired p' :=
    let (r, st) :=
      settle target contentType downloadsDir env acquired (start p') in
    Settled r st in
  match getBrowser (launch env) p with
  | (Reused b, p') => go (Ok b) p'
  | (Launched b, p') => go (Ok b) p'
  | (LaunchFailed m, p') => go (Throw m) p'
  | (Queued r, p') => Waiting r (start p')
  end.

(** A page on which only the selector for direct [.jpg] images matches,
    and matches exactly [els]. *)
Definition jpg_images (els : list Element) : Document :=
  fun selector =>
    if String.eqb selector ("img[src*=" ++ dq ++ ".jpg" ++ dq ++ "]")%string
    then els else [].

(** One picture of the Facebook CDN at thumbnail size, matched twice under
    two query strings. *)
Definition thumbnails : Document :=
  jpg_images
    [ Fixtures.img "https://scontent.xx.fbcdn.net/v/t39/photo.jpg?stp=s160x160" 160 160;
      Fixtures.img "https://scontent.xx.fbcdn.net/v/t39/photo.jpg?stp=s200x200" 200 200 ].

Definition fine : Env :=
  mkEnv (Ok tt) (Ok tt) (Ok tt) (Ok tt) (Ok tt) (Ok thumbnails) "1111"
        (Ok tt) (Ok tt) (Ok tt) (Ok 2048%N)
        "2222" (Ok tt) (Ok tt) (Ok tt) (Ok 4096%N)
        (Ok tt).

Definition post_url : string := "https://www.facebook.com/someone/posts/1".

End Facebook.

(** ** src/App.tsx: the list of downloads *)

Module App.

Inductive Status : Type :=
| pending | processing | ready | downloading | completed
| errored.   (* ['error'] *)

(** An entry of the list; an absent key is [None]. *)
Record Download : Type := mkDownload {
  id : string;
  url : string;
  platform : string;
  contentType : string;
  status : Status;
  progress : nat;
  filename : option string;
  downloadUrl : option string;
  size : option N;
  thumbnail : option string;
  error : option string;
  note : option string
}.

(** [prev.map(d => d.id === id ? f(d) : d)] *)
Definition update (target : string) (f : Download -> Download)
           (prev : list Download) : list Download :=
  map (fun d => if String.eqb (id d) target then f d else d) prev.

Definition toProcessing (d : Download) : Download :=
  mkDownload (id d) (url d) (platform d) (contentType d) processing
             (progress d) (filename d) (downloadUrl d) (size d) (thumbnail d)
             (error d) (note d).

(** The keys read off the answer of [requestDownload]; an answer that is
    not a manifest has none of them. *)
Definition toReady (result : Server.Reply) (d : Download) : Download :=
  match result with
  | Server.Sent m =>
      mkDownload (id d) (url d) (platform d) (contentType d) ready 100
                 (Some (Instagram.filename m))
                 (Some (Instagram.downloadUrl m))
                 (Some (Instagram.size m))
                 (Instagram.thumbnail m) (error d) (Instagram.note m)
  | _ =>
      mkDownload (id d) (url d) (platform d) (contentType d) ready 100
                 None None None None (error d) None
  end.

Definition toError (text : string) (d : Download) : Download :=
  mkDownload (id d) (url d) (platform d) (contentType d) errored
             (progress d) (filename d) (downloadUrl d) (size d) (thumbnail d)
             (Some text) (note d).

(** [addDownload] with no other update of the list in between; [now] is
    [Date.now().toString()] and [answer] is how the [fetch] of
    [requestDownload] settles. *)
Definition addDownload (now target platformName kind : string)
           (answer : Result Server.Reply) (prev : list Download)
  : list Download :=
  let newDownload :=
    mkDownload now target platformName kind pending 0
               None None None None None None in
  let added := newDownload :: prev in
  let started := update now toProcessing added in
  match Api.requestDownload answer with
  | Ok result => update now (toReady result) started
  | Throw text => update now (toError text) started
  end.

(** [removeDownload] *)
Definition removeDownload (target : string) (prev : list Download)
  : list Download :=
  filter (fun d => negb (String.eqb (id d) target)) prev.


End App.

(** * Properties *)

(** ** JavaScript arrays and strings *)

Module JsFacts.

Lemma pop_push {A} (arr : list A) (x : A) :
  Js.pop (arr ++ [x]) = Some (x, arr).
Proof.
  induction arr as [|y arr IH]; [reflexivity|].
  cbn [app Js.pop]. now rewrite IH.
Qed.

Lemma prefix_app (s t : string) : String.prefix s (s ++ t) = true.
Proof.
  induction s as [|c s IH]; [now destruct t|].
  cbn. destruct (ascii_dec c c); [exact IH | congruence].
Qed.

Lemma includes_here (needle rest : string) :
  Js.includes needle (needle ++ rest) = true.
Proof.
  destruct needle as [|c n]; [now destruct rest|].
  cbn [append Js.includes].
  change (String c (n ++ rest)) with (String c n ++ rest)%string.
  now rewrite prefix_app.
Qed.

Lemma includes_skip (needle before rest : string) :
  Js.includes needle rest = true ->
  Js.includes needle (before ++ rest) = true.
Proof.
  intros H. induction before as [|c b IH]; [exact H|].
  cbn [append Js.includes]. rewrite IH. apply orb_true_r.
Qed.

(** A string always includes the text it ends with. *)
Lemma includes_suffix (before needle : string) :
  Js.includes needle (before ++ needle) = true.
Proof.
  apply includes_skip.
  rewrite <- (includes_here needle EmptyString) at 1.
  f_equal. induction needle as [|c n IH]; [reflexivity|].
  cbn. now rewrite <- IH.
Qed.

(** The text before the first [sep] holds no [sep]. *)
Lemma split_head_clean (sep : ascii) (s : string) :
  Js.includes (String sep EmptyString) (Js.split_head sep s) = false.
Proof.
  induction s as [|c s IH]; [reflexivity|].
  cbn [Js.split_head]. destruct (Ascii.eqb_spec c sep) as [->|Hne].
  - reflexivity.
  - cbn [Js.includes String.prefix]. rewrite IH.
    destruct (ascii_dec sep c) as [E|_]; [congruence|reflexivity].
Qed.

(** Two strings that agree up to their first [sep] have the same head. *)
Lemma split_head_query (sep : ascii) (base q : string) :
  Js.includes (String sep EmptyString) base = false ->
  Js.split_head sep (base ++ String sep q) = base.
Proof.
  induction base as [|c b IH]; intros H.
  - cbn. now rewrite Ascii.eqb_refl.
  - cbn [append Js.split_head]. cbn [Js.includes String.prefix] in H.
    destruct (ascii_dec sep c) as [E|Hne].
    + destruct b; discriminate H.
    + destruct (Ascii.eqb_spec c sep) as [E|_]; [congruence|].
      rewrite IH; [reflexivity|].
      destruct (Js.includes (String sep EmptyString) b); [|reflexivity].
      now rewrite orb_true_r in H.
Qed.

End JsFacts.

(** ** The browser pool *)

Module BrowserPoolFacts.

Import BrowserPool.

Lemma getBrowser_queue_empty launch p :
  browserQueue p = [] -> browserQueue (snd (getBrowser launch p)) = [].
Proof.
  intros Hq. unfold getBrowser.
  destruct (Js.pop (browserPool p)) as [[b rest]|]; [exact Hq|].
  rewrite Hq. cbn. destruct launch; exact Hq.
Qed.

Lemma releaseBrowser_queue_empty browser p :
  browserQueue p = [] -> browserQueue (releaseBrowser browser p) = [].
Proof.
  intros Hq. destruct browser as [b|]; [|exact Hq].
  unfold releaseBrowser. rewrite Hq. reflexivity.
Qed.

(** The test [browserQueue.length >= MAX_BROWSERS] is the only place that
    pushes onto the queue, so the queue never gets its first entry. *)
Lemma reachable_queue_empty p : reachable p -> browserQueue p = [].
Proof.
  induction 1 as [|c p _ IH]; [reflexivity|].
  destruct c as [launch|browser|]; cbn [call].
  - generalize (getBrowser_queue_empty launch p IH).
    destruct (getBrowser launch p); exact (fun H => H).
  - now apply releaseBrowser_queue_empty.
  - exact IH.
Qed.

(** No call of [getBrowser] on a reachable pool is ever made to wait. *)
Lemma reachable_never_queued launch p r :
  reachable p -> fst (getBrowser launch p) <> Queued r.
Proof.
  intros Hp. pose proof (reachable_queue_empty Hp) as Hq.
  unfold getBrowser.
  destruct (Js.pop (browserPool p)) as [[b rest]|]; [discriminate|].
  rewrite Hq. cbn. destruct launch; discriminate.
Qed.

(** With nothing idle and nobody queued, [n] calls launch [n] browsers. *)
Lemma run_gets_launch_all n : forall p,
  browserPool p = [] -> browserQueue p = [] ->
  handles (fst (run (repeat (CallGet (Ok tt)) n) p)) = seq (launched p) n.
Proof.
  induction n as [|n IH]; intros p Hp Hq; [reflexivity|].
  cbn [repeat run call]. unfold getBrowser. rewrite Hp, Hq. cbn.
  specialize (IH (mkPool (browserPool p) (browserQueue p) (S (launched p))
                         (promises p) (resolved p)) Hp Hq).
  destruct (run (repeat (CallGet (Ok tt)) n) _) as [answers p2].
  cbn in *. now rewrite IH.
Qed.

(** C1.  Three calls of [getBrowser] on the empty pool, none of them
    released: each finds nothing idle and an empty queue, so each launches
    a browser, and three handles are checked out at once although
    [MAX_BROWSERS] is two. *)
Theorem getBrowser_exceeds_MAX_BROWSERS :
  run [CallGet (Ok tt); CallGet (Ok tt); CallGet (Ok tt)] empty
  = ([Launched 0; Launched 1; Launched 2], mkPool [] [] 3 0 [])
  /\ MAX_BROWSERS < List.length (handles [Launched 0; Launched 1; Launched 2]).
Proof. split; [reflexivity | cbn; unfold MAX_BROWSERS; lia]. Qed.

(** C4.  A release of a handle does exactly one of two things: with a
    waiter queued, the head waiter's promise is resolved with the handle,
    the waiter leaves the queue and the idle pool stays as it is; with no
    waiter, the handle is pushed onto the idle pool and no promise is
    resolved. *)
Theorem releaseBrowser_head_waiter_or_idle (b : Browser) (p : Pool) :
  (exists r q,
      browserQueue p = r :: q
      /\ browserQueue (releaseBrowser (Some b) p) = q
      /\ resolved (releaseBrowser (Some b) p) = resolved p ++ [(r, b)]
      /\ browserPool (releaseBrowser (Some b) p) = browserPool p)
  \/ (browserQueue p = []
      /\ browserQueue (releaseBrowser (Some b) p) = []
      /\ resolved (releaseBrowser (Some b) p) = resolved p
      /\ browserPool (releaseBrowser (Some b) p) = browserPool p ++ [b]).
Proof.
  unfold releaseBrowser. destruct (browserQueue p) as [|r q] eqn:Hq; cbn.
  - right. repeat split.
  - left. exists r, q. repeat split.
Qed.

(** C9.  With no waiter queued, a released handle is the one the very
    next [getBrowser] returns, at once, and the pool is back where it
    was. *)
Theorem released_browser_is_reused_next launch (b : Browser) (p : Pool) :
  browserQueue p = [] ->
  getBrowser launch (releaseBrowser (Some b) p) = (Reused b, p).
Proof.
  intros Hq. destruct p as [idle queue n k res]. cbn in Hq. subst queue.
  unfold releaseBrowser, getBrowser, Js.push. cbn.
  now rewrite JsFacts.pop_push.
Qed.

Lemma released_browser_is_reused_next_witness :
  browserQueue (mkPool [4] [] 7 0 []) = []
  /\ getBrowser (Ok tt) (releaseBrowser (Some 5) (mkPool [4] [] 7 0 []))
     = (Reused 5, mkPool [4] [] 7 0 []).
Proof.
  split; [reflexivity|].
  apply (@released_browser_is_reused_next (Ok tt) 5 (mkPool [4] [] 7 0 [])).
  reflexivity.
Defined.

(** C5, as the code has it.  Nothing guards a second release: each
    release of the same handle is accepted, with no waiter queued the
    handle is pushed onto the idle pool twice, and the next two calls of
    [getBrowser] both return it. *)
Theorem double_release_is_accepted l1 l2 (b : Browser) (p : Pool) :
  browserQueue p = [] ->
  browserPool (releaseBrowser (Some b) (releaseBrowser (Some b) p))
  = browserPool p ++ [b; b]
  /\ run [CallGet l1; CallGet l2]
         (releaseBrowser (Some b) (releaseBrowser (Some b) p))
     = ([Reused b; Reused b], p).
Proof.
  intros Hq. destruct p as [idle queue n k res]. cbn in Hq. subst queue.
  unfold releaseBrowser, Js.push. cbn. split.
  - now rewrite <- app_assoc.
  - unfold getBrowser. cbn. rewrite JsFacts.pop_push. cbn.
    now rewrite JsFacts.pop_push.
Qed.

Lemma double_release_is_accepted_witness :
  browserQueue (mkPool [] [] 1 0 []) = []
  /\ browserPool (releaseBrowser (Some 0)
                    (releaseBrowser (Some 0) (mkPool [] [] 1 0 [])))
     = [0; 0].
Proof.
  split; [reflexivity|].
  apply (@double_release_is_accepted (Ok tt) (Ok tt) 0 (mkPool [] [] 1 0 [])).
  reflexivity.
Defined.

(** C5, as stated, fails: browser 0 is launched for one caller and
    released twice.  The second release is not rejected (it changes the
    pool), the idle pool then holds the handle twice, and two further
    callers are both handed browser 0. *)
Lemma double_release_not_rejected :
  getBrowser (Ok tt) empty = (Launched 0, mkPool [] [] 1 0 [])
  /\ releaseBrowser (Some 0) (releaseBrowser (Some 0) (mkPool [] [] 1 0 []))
     <> releaseBrowser (Some 0) (mkPool [] [] 1 0 [])
  /\ browserPool
       (releaseBrowser (Some 0) (releaseBrowser (Some 0) (mkPool [] [] 1 0 [])))
     = [0; 0]
  /\ fst (run [CallGet (Ok tt); CallGet (Ok tt)]
            (releaseBrowser (Some 0)
               (releaseBrowser (Some 0) (mkPool [] [] 1 0 []))))
     = [Reused 0; Reused 0].
Proof. repeat split. discriminate. Qed.

End BrowserPoolFacts.

(** ** The media extractor *)

Module ExtractorFacts.

Import Extractor.

Lemma has_In (found : list string) (s : string) :
  has found s = true <-> In s found.
Proof.
  unfold has. rewrite existsb_exists. split.
  - intros [x [Hin Heq]]. apply String.eqb_eq in Heq. now subst.
  - intros Hin. exists s. split; [exact Hin | apply String.eqb_refl].
Qed.

(** While [foundSources] lists the URLs of [media], one visit is [step]. *)
Lemma visit_step (media : list MediaCandidate) (el : Element) :
  visit (media, urls media) el = (step media el, urls (step media el)).
Proof.
  unfold visit, step, candidate.
  destruct (sourceOf el) as [s0|]; cbn [Js.truthy]; [|reflexivity].
  destruct (String.eqb s0 EmptyString); cbn [negb andb]; [reflexivity|].
  destruct (Js.includes "scontent" _ || Js.includes "instagram.com" _);
    cbn [andb]; [|reflexivity].
  destruct (isThumbnail el); cbn [negb andb url]; [reflexivity|].
  destruct (has (urls media) _); cbn [negb]; [reflexivity|].
  unfold Js.push, urls. now rewrite map_app.
Qed.

Lemma fold_visit_step (els : list Element) : forall media,
  fold_left visit els (media, urls media)
  = (fold_left step els media, urls (fold_left step els media)).
Proof.
  induction els as [|el els IH]; intros media; [reflexivity|].
  cbn [fold_left]. now rewrite visit_step, IH.
Qed.

Lemma fold_selectors (document : Document) (sels : list string) : forall st,
  fold_left (fun st selector => fold_left visit (document selector) st) sels st
  = fold_left visit (flat_map document sels) st.
Proof.
  induction sels as [|sel sels IH]; intros st; [reflexivity|].
  cbn [fold_left flat_map]. now rewrite fold_left_app, IH.
Qed.

(** The callback is one pass of [step] over the matched elements. *)
Lemma evaluate_fold (document : Document) :
  evaluate document = fold_left step (matched document) [].
Proof.
  unfold evaluate, matched. rewrite fold_selectors.
  change (@nil string) with (urls []). now rewrite fold_visit_step.
Qed.

Lemma step_urls (media : list MediaCandidate) (el : Element) (u : string) :
  In u (urls (step media el)) <-> In u (urls media) \/ yields u el = true.
Proof.
  unfold step, yields. destruct (candidate el) as [c|].
  - destruct (has (urls media) (url c)) eqn:Hhas.
    + apply has_In in Hhas. split; [now left|].
      intros [H|H]; [exact H|]. apply String.eqb_eq in H. now subst.
    + unfold urls. rewrite map_app, in_app_iff. cbn.
      rewrite String.eqb_eq. tauto.
  - split; [now left | intros [H|H]; [exact H | discriminate]].
Qed.

Lemma step_NoDup (media : list MediaCandidate) (el : Element) :
  NoDup (urls media) -> NoDup (urls (step media el)).
Proof.
  intros Hnd. unfold step. destruct (candidate el) as [c|]; [|exact Hnd].
  destruct (has (urls media) (url c)) eqn:Hhas; [exact Hnd|].
  unfold urls. rewrite map_app. cbn.
  apply NoDup_rev in Hnd. rewrite <- (rev_involutive (map url media ++ _)).
  apply NoDup_rev. rewrite rev_app_distr. cbn. constructor; [|exact Hnd].
  rewrite <- in_rev. intros Hin. apply has_In in Hin.
  unfold urls in Hhas. congruence.
Qed.

Lemma step_origin (media : list MediaCandidate) (el : Element) c :
  In c (step media el) -> In c media \/ candidate el = Some c.
Proof.
  unfold step. destruct (candidate el) as [c'|]; [|now left].
  destruct (has (urls media) (url c')); [now left|].
  rewrite in_app_iff. cbn. intros [H|[H|[]]]; [now left | right; congruence].
Qed.

Section Pass.
Variable els : list Element.

Lemma pass_urls : forall media u,
  In u (urls (fold_left step els media))
  <-> In u (urls media) \/ existsb (yields u) els = true.
Proof.
  induction els as [|el l IH]; intros media u; cbn [fold_left existsb].
  - split; [now left | intros [H|H]; [exact H | discriminate]].
  - rewrite IH, step_urls, orb_true_iff. tauto.
Qed.

Lemma pass_NoDup : forall media,
  NoDup (urls media) -> NoDup (urls (fold_left step els media)).
Proof.
  induction els as [|el l IH]; intros media Hnd; [exact Hnd|].
  cbn [fold_left]. now apply IH, step_NoDup.
Qed.

Lemma pass_origin : forall media c,
  In c (fold_left step els media) ->
  In c media \/ exists el, In el els /\ candidate el = Some c.
Proof.
  induction els as [|el l IH]; intros media c Hin; [now left|].
  cbn [fold_left] in Hin. destruct (IH _ _ Hin) as [H|[el' [H1 H2]]].
  - destruct (step_origin _ _ _ H) as [H'|H']; [now left|].
    right. exists el. split; [now left | exact H'].
  - right. exists el'. split; [now right | exact H2].
Qed.
End Pass.

(** A candidate's URL is the element's source up to its first [?], and
    it carries one of the two markers. *)
Lemma candidate_url (el : Element) c :
  candidate el = Some c ->
  exists s0, sourceOf el = Some s0
             /\ url c = Js.split_head "?"%char s0
             /\ Js.includes "scontent" (url c)
                || Js.includes "instagram.com" (url c) = true
             /\ isThumbnail el = false.
Proof.
  unfold candidate. destruct (sourceOf el) as [s0|]; [|discriminate].
  destruct (negb (String.eqb s0 EmptyString)); cbn [andb]; [|discriminate].
  destruct (Js.includes "scontent" _ || Js.includes "instagram.com" _) eqn:Hd;
    cbn [andb]; [|discriminate].
  destruct (isThumbnail el); cbn [negb]; [discriminate|].
  intros [= <-]. exists s0. cbn [url]. now rewrite Hd.
Qed.

End ExtractorFacts.

Module ExtractorClaims.

Import Extractor ExtractorFacts.

(** C6, as the code has it.  Every returned URL is the source of a
    matched element cut at its first [?]; for every URL [u] the returned
    sequence holds exactly one candidate of URL [u] when some matched
    element passes the source, domain and size tests with normalized URL
    [u], and none otherwise.  So two matched elements whose URLs differ
    only in the query string yield at most one candidate for their common
    URL, and exactly one as soon as one of the two passes the tests.  A
    page with no matching element yields the empty sequence. *)
Theorem evaluate_dedups_normalized_urls (document : Document) :
  (forall c, In c (evaluate document) ->
     exists el s0, In el (matched document)
                   /\ sourceOf el = Some s0
                   /\ url c = Js.split_head "?"%char s0)
  /\ (forall u,
        count_occ string_dec (urls (evaluate document)) u
        = if existsb (yields u) (matched document) then 1 else 0)
  /\ (forall e1 e2 base q1 q2,
        In e1 (matched document) -> In e2 (matched document) ->
        sourceOf e1 = Some (base ++ String "?" q1)%string ->
        sourceOf e2 = Some (base ++ String "?" q2)%string ->
        Js.includes "?" base = false ->
        count_occ string_dec (urls (evaluate document)) base <= 1
        /\ (candidate e1 <> None \/ candidate e2 <> None ->
            count_occ string_dec (urls (evaluate document)) base = 1))
  /\ (matched document = [] -> evaluate document = []).
Proof.
  assert (Hcount : forall u,
             count_occ string_dec (urls (evaluate document)) u
             = if existsb (yields u) (matched document) then 1 else 0).
  { intros u. rewrite evaluate_fold.
    pose proof (pass_urls (matched document) [] u) as Hu.
    pose proof (pass_NoDup (matched document) [] (NoDup_nil _)) as Hnd.
    destruct (existsb (yields u) (matched document)).
    + apply NoDup_count_occ'; [exact Hnd|]. apply Hu. now right.
    + apply count_occ_not_In. intros Hin. apply Hu in Hin.
      destruct Hin as [[]|H]. discriminate. }
  split; [|split; [exact Hcount|split]].
  - rewrite evaluate_fold. intros c Hin. apply pass_origin in Hin.
    destruct Hin as [[]|[el [H1 H2]]].
    destruct (candidate_url _ H2) as [s0 [Hs [Hu _]]]. now exists el, s0.
  - intros e1 e2 base q1 q2 Hin1 Hin2 Hs1 Hs2 Hbase. rewrite Hcount. split.
    + destruct (existsb _ _); lia.
    + assert (Hy : forall el q, In el (matched document) ->
                     sourceOf el = Some (base ++ String "?" q)%string ->
                     candidate el <> None ->
                     existsb (yields base) (matched document) = true).
      { intros el q Hin Hs Hc. apply existsb_exists. exists el.
        split; [exact Hin|]. unfold yields.
        destruct (candidate el) as [c|] eqn:Hcand; [|congruence].
        destruct (candidate_url _ Hcand) as [s0 [Hs0 [Hu _]]].
        rewrite Hs in Hs0. injection Hs0 as <-.
        rewrite Hu, (JsFacts.split_head_query _ _ _ Hbase).
        apply String.eqb_refl. }
      intros [Hc|Hc]; [rewrite (Hy e1 q1) | rewrite (Hy e2 q2)];
        auto.
  - unfold evaluate, matched. rewrite fold_selectors. intros ->. reflexivity.
Qed.

(** The same picture matched twice at full size under two query strings is
    listed once. *)
Lemma evaluate_dedups_normalized_urls_witness :
  evaluate Fixtures.duplicates
  = [ mkMedia "https://scontent.cdninstagram.com/v/t51/photo.jpg" image ]
  /\ count_occ string_dec (urls (evaluate Fixtures.duplicates))
               "https://scontent.cdninstagram.com/v/t51/photo.jpg" = 1.
Proof.
  split; [vm_compute; reflexivity|].
  refine (proj2 (proj1 (proj2 (proj2
            (evaluate_dedups_normalized_urls Fixtures.duplicates)))
            (Fixtures.img "https://scontent.cdninstagram.com/v/t51/photo.jpg?stp=a" 1080 1080)
            (Fixtures.img "https://scontent.cdninstagram.com/v/t51/photo.jpg?stp=b" 1080 1350)
            "https://scontent.cdninstagram.com/v/t51/photo.jpg" "stp=a" "stp=b"
            _ _ _ _ _) _).
  - vm_compute. left. reflexivity.
  - vm_compute. right. left. reflexivity.
  - vm_compute. reflexivity.
  - vm_compute. reflexivity.
  - vm_compute. reflexivity.
  - left. vm_compute. discriminate.
Defined.

(** C6, as stated, fails: two matched images from the CDN whose URLs
    differ only in the query string, both of thumbnail size, yield no
    candidate for their common normalized URL, not exactly one. *)
Lemma duplicate_thumbnails_yield_none :
  List.length (matched Fixtures.thumbnails) = 2
  /\ map (fun el => option_map (Js.split_head "?"%char) (sourceOf el))
         (matched Fixtures.thumbnails)
     = [ Some "https://scontent.cdninstagram.com/v/t51/photo.jpg";
         Some "https://scontent.cdninstagram.com/v/t51/photo.jpg" ]
  /\ count_occ string_dec (urls (evaluate Fixtures.thumbnails))
               "https://scontent.cdninstagram.com/v/t51/photo.jpg" = 0.
Proof. vm_compute. repeat split. Qed.

(** C7, as the code has it.  A candidate is returned only if its URL,
    cut at the first [?], contains the text [scontent] or the text
    [instagram.com] somewhere; a URL containing neither is rejected. *)
Theorem evaluate_accepts_only_marked_urls (document : Document) c :
  In c (evaluate document) ->
  Js.includes "scontent" (url c) || Js.includes "instagram.com" (url c) = true.
Proof.
  rewrite evaluate_fold. intros Hin. apply pass_origin in Hin.
  destruct Hin as [[]|[el [_ H]]].
  now destruct (candidate_url _ H) as [s0 [_ [_ [Hd _]]]].
Qed.

Lemma evaluate_accepts_only_marked_urls_witness :
  In (mkMedia "https://scontent.cdninstagram.com/v/t51/photo.jpg" image)
     (evaluate Fixtures.duplicates)
  /\ Js.includes "scontent" "https://scontent.cdninstagram.com/v/t51/photo.jpg"
     || Js.includes "instagram.com"
                    "https://scontent.cdninstagram.com/v/t51/photo.jpg"
     = true.
Proof.
  assert (H : In (mkMedia "https://scontent.cdninstagram.com/v/t51/photo.jpg"
                          image)
                 (evaluate Fixtures.duplicates))
    by (vm_compute; left; reflexivity).
  split; [exact H|].
  exact (@evaluate_accepts_only_marked_urls _ _ H).
Defined.

(** C7, as stated, fails: a picture whose host is [evil.example] is
    accepted because its path spells [instagram.com]. *)
Lemma offsite_url_accepted :
  evaluate Fixtures.offsite
  = [ mkMedia "https://evil.example/instagram.com/a.jpg" image ]
  /\ SpecUrl.host "https://evil.example/instagram.com/a.jpg" = Some "evil.example"
  /\ SpecUrl.host_allowed "https://evil.example/instagram.com/a.jpg" = false.
Proof. vm_compute. repeat split. Qed.

End ExtractorClaims.

(** ** The download orchestrator *)

Module InstagramFacts.

Import BrowserPool Extractor Instagram.

(** Unfolds a request down to the outcomes of its calls to the outside. *)
Ltac unfold_eff :=
  cbv [settle primary recover cleanup downloadFallbackContent discard_partial
       perform stream_to emit set_browserInstance set_page
       set_downloadedFilePath with_note
       Eff.bind Eff.ret Eff.throw Eff.await Eff.modify Eff.get
       Eff.try_catch Eff.finally
       pool browserInstance page downloadedFilePath trace
       launch newPage setUserAgent setViewport goto dom uuid get
       createWriteStream write stat fallback_uuid fallback_get
       fallback_createWriteStream fallback_write fallback_stat pageClose]
    in *.

(** Splits on how the next call to the outside settles. *)
Ltac split_outcome :=
  match goal with
  | H : context [match ?r with Ok _ => _ | Throw _ => _ end] |- _ =>
      is_var r; destruct r
  | H : context [match evaluate ?d with [] => _ | _ :: _ => _ end] |- _ =>
      destruct (evaluate d) as [|[? []] ?]
  | H : context [if isVideo ?c then _ else _] |- _ =>
      destruct (isVideo c)
  | H : context [match ?o with Some _ => _ | None => _ end] |- _ =>
      is_var o; destruct o
  | H : context [if ?b then _ else _] |- _ =>
      is_var b; destruct b
  end.

Ltac settle_trace :=
  cbn [trace pool browserInstance page downloadedFilePath];
  rewrite <- ?app_assoc; cbn [app].

(** The try block leaves the pool alone, records the handle it was given
    and neither releases it nor enters the fallback. *)
Lemma primary_state target ct dir env b st r st1 :
  primary target ct dir env (Ok b) st = (r, st1) ->
  pool st1 = pool st
  /\ browserInstance st1 = Some b
  /\ exists events, trace st1 = trace st ++ events
                    /\ forallb quiet events = true.
Proof.
  destruct env, st. unfold_eff. intros H.
  repeat split_outcome; injection H as <- <-; settle_trace;
    (split; [reflexivity | split; [reflexivity|]]);
    eexists; (split; reflexivity).
Qed.

(** The fallback leaves the pool and the request's variables alone; its
    first event is its entry and it releases nothing. *)
Lemma fallback_state ct dir platform env st r st2 :
  downloadFallbackContent ct dir platform env st = (r, st2) ->
  pool st2 = pool st
  /\ browserInstance st2 = browserInstance st
  /\ page st2 = page st
  /\ exists during, trace st2 = trace st ++ EvFallback :: during
                    /\ forallb (fun e => negb (isRelease e)) during = true.
Proof.
  destruct env, st. unfold_eff. intros H.
  repeat split_outcome; injection H as <- <-; settle_trace;
    repeat (split; [reflexivity|]);
    eexists; (split; reflexivity).
Qed.

(** What a manifest of the fallback looks like. *)
Lemma fallback_manifest ct dir platform env st m st2 :
  downloadFallbackContent ct dir platform env st = (Ok m, st2) ->
  contentType m = (if isVideo ct then video else image)
  /\ thumbnail m = match contentType m with
                   | image => Some (downloadUrl m)
                   | video => None
                   end
  /\ note m = Some fallbackNote
  /\ In (EvGet (sampleUrls (contentType m))) (trace st2).
Proof.
  destruct env, st. unfold_eff. intros H.
  repeat split_outcome; try discriminate H; injection H as <- <-;
    cbn [contentType thumbnail downloadUrl note trace sampleUrls];
    repeat (split; [reflexivity|]);
    rewrite !in_app_iff; cbn; tauto.
Qed.

Lemma discard_partial_state st :
  fst (discard_partial st) = Ok tt
  /\ pool (snd (discard_partial st)) = pool st
  /\ browserInstance (snd (discard_partial st)) = browserInstance st
  /\ page (snd (discard_partial st)) = page st
  /\ exists events, trace (snd (discard_partial st)) = trace st ++ events
                    /\ forallb quiet events = true.
Proof.
  destruct st as [p bi pg [path|] tr]; repeat (split; [reflexivity|]).
  - exists [EvUnlink path]. split; reflexivity.
  - exists []. split; [symmetry; apply app_nil_r | reflexivity].
Qed.

Lemma quiet_no_release events :
  forallb quiet events = true -> existsb isRelease events = false.
Proof.
  induction events as [|e l IH]; [reflexivity|].
  cbn [forallb existsb]. unfold quiet at 1.
  destruct (isRelease e); cbn; [discriminate|].
  intros H. apply andb_true_iff in H. now apply IH.
Qed.

Lemma no_release_forallb events :
  forallb (fun e => negb (isRelease e)) events = true ->
  existsb isRelease events = false.
Proof.
  induction events as [|e l IH]; [reflexivity|].
  cbn [forallb existsb]. destruct (isRelease e); cbn; [discriminate|exact IH].
Qed.

Lemma cleanup_ok env st :
  pageClose env = Ok tt -> fst (cleanup env st) = Ok tt.
Proof.
  destruct env, st as [p [b|] [|] path tr]; unfold_eff; intros ->;
    reflexivity.
Qed.

(** The finally block, when closing the page does not throw: the page is
    closed if there is one, then the handle goes back to the pool. *)
Lemma cleanup_state env st b :
  browserInstance st = Some b ->
  pageClose env = Ok tt ->
  cleanup env st
  = (Ok tt,
     mkSt (releaseBrowser (Some b) (pool st)) (Some b) (page st)
          (downloadedFilePath st)
          (trace st ++ (if page st then [EvPageClose] else [])
             ++ [EvRelease b])).
Proof.
  destruct env, st as [p bi [|] path tr]; unfold_eff; intros -> ->;
    settle_trace; reflexivity.
Qed.

(** A request whose try block has thrown: the catch block and the finally
    block, spelled out. *)
Lemma settle_failed_primary target ct dir env acquired st e1 st1 :
  primary target ct dir env acquired st = (Throw e1, st1) ->
  settle target ct dir env acquired st
  = (let (rf, st2) :=
       downloadFallbackContent ct dir "instagram" env
                               (snd (discard_partial st1)) in
     match cleanup env st2 with
     | (Ok _, st3) =>
         (match rf with
          | Ok m => Ok (with_note m (primaryNote e1))
          | Throw _ => Throw (bothFailed e1)
          end, st3)
     | (Throw e, st3) => (Throw e, st3)
     end).
Proof.
  intros H. unfold settle, recover.
  unfold Eff.finally, Eff.try_catch, Eff.bind. rewrite H.
  destruct (discard_partial_state st1) as [Hd _].
  destruct (discard_partial st1) as [r0 st1']. cbn [fst snd] in *. subst r0.
  destruct (downloadFallbackContent ct dir "instagram" env st1')
    as [[m|e2] st2]; cbn [Eff.ret Eff.throw];
    destruct (cleanup env st2) as [[[]|e] st3]; reflexivity.
Qed.

(** A request whose try block has returned: only the finally block is
    left. *)
Lemma settle_returned_primary target ct dir env acquired st m st1 :
  primary target ct dir env acquired st = (Ok m, st1) ->
  settle target ct dir env acquired st
  = match cleanup env st1 with
    | (Ok _, st3) => (Ok m, st3)
    | (Throw e, st3) => (Throw e, st3)
    end.
Proof.
  intros H. unfold settle, Eff.finally, Eff.try_catch. rewrite H.
  destruct (cleanup env st1) as [[[]|e] st3]; reflexivity.
Qed.

(** What a manifest of the try block looks like. *)
Lemma primary_manifest target ct dir env acquired st m st1 :
  primary target ct dir env acquired st = (Ok m, st1) ->
  thumbnail m = match contentType m with
                | image => Some (downloadUrl m)
                | video => None
                end
  /\ note m = None.
Proof.
  destruct env, st, acquired; unfold_eff; intros H;
    repeat split_outcome; try discriminate H; injection H as <- <-;
    split; reflexivity.
Qed.

End InstagramFacts.

Module InstagramClaims.

Import BrowserPool Extractor Instagram InstagramFacts.

(** C2, as the code has it.  When the try block fails with the handle
    [b] checked out, the handle stays checked out while the fallback runs:
    nothing is released before the fallback is entered nor while it runs,
    and the one release of [b] is the last thing the request does, in the
    finally block (here with a page close that does not throw). *)
Theorem handle_held_through_fallback target ct dir env b p e1 st1 :
  primary target ct dir env (Ok b) (start p) = (Throw e1, st1) ->
  pageClose env = Ok tt ->
  exists before during,
    trace (snd (settle target ct dir env (Ok b) (start p)))
    = before ++ EvFallback :: during ++ [EvRelease b]
    /\ existsb isRelease (before ++ during) = false
    /\ pool (snd (settle target ct dir env (Ok b) (start p)))
       = releaseBrowser (Some b) p.
Proof.
  intros Hprimary Hclose.
  destruct (primary_state _ _ _ _ _ _ Hprimary)
    as [Hpool [Hb [events [Htrace Hquiet]]]].
  destruct (discard_partial_state st1)
    as [_ [Hdpool [Hdb [_ [unlinked [Hdtrace Hdquiet]]]]]].
  rewrite (settle_failed_primary _ _ _ _ _ _ Hprimary).
  destruct (downloadFallbackContent ct dir "instagram" env
                                    (snd (discard_partial st1)))
    as [rf st2] eqn:Hf.
  destruct (fallback_state _ _ _ _ _ Hf)
    as [Hfpool [Hfb [_ [during [Hftrace Hfquiet]]]]].
  assert (Hb2 : browserInstance st2 = Some b) by congruence.
  rewrite (cleanup_state _ _ Hb2 Hclose). cbn [snd trace pool].
  exists (events ++ unlinked),
         (during ++ if page st2 then [EvPageClose] else []).
  split; [|split].
  - rewrite Hftrace, Hdtrace, Htrace. cbn [start trace app].
    rewrite <- !app_assoc. reflexivity.
  - rewrite !existsb_app, (quiet_no_release _ Hquiet),
      (quiet_no_release _ Hdquiet), (no_release_forallb _ Hfquiet).
    now destruct (page st2).
  - rewrite Hfpool, Hdpool, Hpool. reflexivity.
Qed.

Lemma handle_held_through_fallback_witness :
  primary Fixtures.post_url "post" Fixtures.downloads
          Fixtures.navigation_timeout (Ok 0) (start (mkPool [] [] 1 0 []))
  = (Throw "Navigation timeout of 45000 ms exceeded",
     mkSt (mkPool [] [] 1 0 []) (Some 0) true None
          [ EvNewPage; EvSetUserAgent; EvSetViewport;
            EvGoto "https://www.instagram.com/p/Cabc123/" ])
  /\ pageClose Fixtures.navigation_timeout = Ok tt
  /\ exists before during,
       trace (snd (settle Fixtures.post_url "post" Fixtures.downloads
                          Fixtures.navigation_timeout (Ok 0)
                          (start (mkPool [] [] 1 0 []))))
       = before ++ EvFallback :: during ++ [EvRelease 0]
       /\ existsb isRelease (before ++ during) = false
       /\ pool (snd (settle Fixtures.post_url "post" Fixtures.downloads
                            Fixtures.navigation_timeout (Ok 0)
                            (start (mkPool [] [] 1 0 []))))
          = releaseBrowser (Some 0) (mkPool [] [] 1 0 []).
Proof.
  assert (H : primary Fixtures.post_url "post" Fixtures.downloads
                      Fixtures.navigation_timeout (Ok 0)
                      (start (mkPool [] [] 1 0 []))
              = (Throw "Navigation timeout of 45000 ms exceeded",
                 mkSt (mkPool [] [] 1 0 []) (Some 0) true None
                      [ EvNewPage; EvSetUserAgent; EvSetViewport;
                        EvGoto "https://www.instagram.com/p/Cabc123/" ]))
    by (vm_compute; reflexivity).
  split; [exact H | split; [reflexivity|]].
  exact (@handle_held_through_fallback _ _ _ _ _ _ _ _ H eq_refl).
Defined.

(** C2, as stated, fails: navigation times out on the first request of a
    fresh pool and the fallback succeeds.  The fallback is entered as the
    fifth event and fetches and writes the substitute asset; browser 0 is
    released only as the eleventh and last event. *)
Lemma fallback_runs_before_release :
  trace (final (downloadInstagramContent
                  Fixtures.post_url "post" Fixtures.downloads
                  Fixtures.navigation_timeout empty))
  = [ EvNewPage; EvSetUserAgent; EvSetViewport;
      EvGoto "https://www.instagram.com/p/Cabc123/";
      EvFallback;
      EvGet "https://picsum.photos/800/600";
      EvCreateWriteStream "/srv/downloads/instagram_post_fallback_2222.jpg";
      EvWrite "/srv/downloads/instagram_post_fallback_2222.jpg";
      EvStat "/srv/downloads/instagram_post_fallback_2222.jpg";
      EvPageClose;
      EvRelease 0 ]
  /\ position isFallback
       (trace (final (downloadInstagramContent
                        Fixtures.post_url "post" Fixtures.downloads
                        Fixtures.navigation_timeout empty))) = Some 4
  /\ position isRelease
       (trace (final (downloadInstagramContent
                        Fixtures.post_url "post" Fixtures.downloads
                        Fixtures.navigation_timeout empty))) = Some 10.
Proof. vm_compute. repeat split. Qed.

(** C3, as the code has it.  When the try block fails with [e1] and the
    fallback fails too, the error thrown to the caller is the fixed prefix
    followed by [e1]: it contains the original reason; the fallback's
    reason is not part of it.  (Here with a page close that does not
    throw.) *)
Theorem both_failed_error_names_primary_reason
        target ct dir env acquired st e1 st1 e2 st2 :
  primary target ct dir env acquired st = (Throw e1, st1) ->
  downloadFallbackContent ct dir "instagram" env (snd (discard_partial st1))
  = (Throw e2, st2) ->
  pageClose env = Ok tt ->
  fst (settle target ct dir env acquired st)
  = Throw ("Failed to download content from Instagram or provide fallback: "
             ++ e1)%string
  /\ Js.includes e1 (bothFailed e1) = true.
Proof.
  intros Hprimary Hfallback Hclose.
  rewrite (settle_failed_primary _ _ _ _ _ _ Hprimary), Hfallback.
  pose proof (cleanup_ok env st2 Hclose) as Hc.
  destruct (cleanup env st2) as [[[]|e] st3]; [|discriminate Hc].
  split; [reflexivity | apply JsFacts.includes_suffix].
Qed.

Lemma both_failed_error_names_primary_reason_witness :
  fst (primary Fixtures.post_url "post" Fixtures.downloads
               Fixtures.nothing_works (Ok 0) (start (mkPool [] [] 1 0 [])))
  = Throw "No media found in Instagram post for given URL."
  /\ fst (downloadFallbackContent
            "post" Fixtures.downloads "instagram" Fixtures.nothing_works
            (snd (discard_partial
                    (snd (primary Fixtures.post_url "post" Fixtures.downloads
                                  Fixtures.nothing_works (Ok 0)
                                  (start (mkPool [] [] 1 0 [])))))))
     = Throw "Fallback download failed: connect ETIMEDOUT"
  /\ pageClose Fixtures.nothing_works = Ok tt
  /\ fst (settle Fixtures.post_url "post" Fixtures.downloads
                 Fixtures.nothing_works (Ok 0) (start (mkPool [] [] 1 0 [])))
     = Throw ("Failed to download content from Instagram or provide fallback: "
                ++ "No media found in Instagram post for given URL.")%string.
Proof.
  assert (H1 : primary Fixtures.post_url "post" Fixtures.downloads
                       Fixtures.nothing_works (Ok 0)
                       (start (mkPool [] [] 1 0 []))
               = (Throw "No media found in Instagram post for given URL.",
                  snd (primary Fixtures.post_url "post" Fixtures.downloads
                               Fixtures.nothing_works (Ok 0)
                               (start (mkPool [] [] 1 0 [])))))
    by (vm_compute; reflexivity).
  assert (H2 : downloadFallbackContent
                 "post" Fixtures.downloads "instagram" Fixtures.nothing_works
                 (snd (discard_partial
                         (snd (primary Fixtures.post_url "post"
                                       Fixtures.downloads
                                       Fixtures.nothing_works (Ok 0)
                                       (start (mkPool [] [] 1 0 []))))))
               = (Throw "Fallback download failed: connect ETIMEDOUT",
                  snd (downloadFallbackContent
                         "post" Fixtures.downloads "instagram"
                         Fixtures.nothing_works
                         (snd (discard_partial
                                 (snd (primary Fixtures.post_url "post"
                                               Fixtures.downloads
                                               Fixtures.nothing_works (Ok 0)
                                               (start (mkPool [] [] 1 0 [])))))))))
    by (vm_compute; reflexivity).
  split; [now rewrite H1 | split; [now rewrite H2 | split; [reflexivity|]]].
  exact (proj1 (@both_failed_error_names_primary_reason
                  _ _ _ _ _ _ _ _ _ _ H1 H2 eq_refl)).
Defined.

(** C3, as stated, fails: the page holds no media and the fetch of the
    substitute asset times out.  The error thrown to the caller names the
    missing media only; neither the fallback's error nor the timeout it
    wraps is contained in it. *)
Lemma fallback_reason_not_surfaced :
  outcome (downloadInstagramContent
             Fixtures.post_url "post" Fixtures.downloads
             Fixtures.nothing_works empty)
  = Some (Throw "Failed to download content from Instagram or provide fallback: No media found in Instagram post for given URL.")
  /\ fst (downloadFallbackContent "post" Fixtures.downloads "instagram"
                                  Fixtures.nothing_works (start empty))
     = Throw "Fallback download failed: connect ETIMEDOUT"
  /\ Js.includes "Fallback download failed: connect ETIMEDOUT"
                 "Failed to download content from Instagram or provide fallback: No media found in Instagram post for given URL."
     = false
  /\ Js.includes "connect ETIMEDOUT"
                 "Failed to download content from Instagram or provide fallback: No media found in Instagram post for given URL."
     = false.
Proof. vm_compute. repeat split. Qed.

(** C8, as the code has it.  The fallback's kind is fixed by the
    requested type alone: video for [reel], [story] and [video], image for
    every other type, [post] and [highlight] among them; the asset fetched
    is the sample URL of that kind.  Nothing is chosen at random. *)
Theorem fallback_kind_fixed_by_type ct dir platform env st m st2 :
  downloadFallbackContent ct dir platform env st = (Ok m, st2) ->
  contentType m = (if isVideo ct then video else image)
  /\ In (EvGet (sampleUrls (contentType m))) (trace st2)
  /\ (ct = "post" \/ ct = "highlight" -> contentType m = image)
  /\ (ct = "reel" \/ ct = "story" \/ ct = "video" -> contentType m = video).
Proof.
  intros H. destruct (fallback_manifest _ _ _ _ _ H) as [Hk [_ [_ Hget]]].
  repeat split; try assumption; rewrite Hk.
  - now intros [-> | ->].
  - now intros [-> | [-> | ->]].
Qed.

Lemma fallback_kind_fixed_by_type_witness :
  fst (downloadFallbackContent "story" Fixtures.downloads "instagram"
                               Fixtures.navigation_timeout (start empty))
  = Ok (mkManifest
          true
          "http://localhost:3001/downloads/instagram_story_fallback_2222.mp4"
          "instagram_story_fallback_2222.mp4" video 4096
          "/srv/downloads/instagram_story_fallback_2222.mp4" None
          (Some fallbackNote))
  /\ In (EvGet "https://sample-videos.com/zip/10/mp4/SampleVideo_1280x720_1mb.mp4")
        (trace (snd (downloadFallbackContent
                       "story" Fixtures.downloads "instagram"
                       Fixtures.navigation_timeout (start empty)))).
Proof.
  assert (H : downloadFallbackContent "story" Fixtures.downloads "instagram"
                                      Fixtures.navigation_timeout (start empty)
              = (Ok (mkManifest
                       true
                       "http://localhost:3001/downloads/instagram_story_fallback_2222.mp4"
                       "instagram_story_fallback_2222.mp4" video 4096
                       "/srv/downloads/instagram_story_fallback_2222.mp4" None
                       (Some fallbackNote)),
                 snd (downloadFallbackContent
                        "story" Fixtures.downloads "instagram"
                        Fixtures.navigation_timeout (start empty))))
    by (vm_compute; reflexivity).
  split; [now rewrite H|].
  exact (proj1 (proj2 (@fallback_kind_fixed_by_type _ _ _ _ _ _ _ H))).
Defined.

(** C8, as stated, fails: no outcome of the calls to the outside makes
    the fallback answer a [post] with a video, nor a [story] with an
    image. *)
Lemma fallback_never_chooses :
  ~ (exists dir platform env st m st2,
        downloadFallbackContent "post" dir platform env st = (Ok m, st2)
        /\ contentType m = video)
  /\ ~ (exists dir platform env st m st2,
          downloadFallbackContent "story" dir platform env st = (Ok m, st2)
          /\ contentType m = image).
Proof.
  split; intros [dir [platform [env [st [m [st2 [H Hk]]]]]]];
    destruct (fallback_manifest _ _ _ _ _ H) as [Hm _];
    rewrite Hm in Hk; discriminate Hk.
Qed.

(** C10.  Whatever manifest a request returns, from the primary download
    or from the fallback, its thumbnail is the served download URL when the
    content kind is image and null when it is video. *)
Theorem thumbnail_set_exactly_for_images
        target ct dir env acquired st m st' :
  settle target ct dir env acquired st = (Ok m, st') ->
  thumbnail m = match contentType m with
                | image => Some (downloadUrl m)
                | video => None
                end.
Proof.
  destruct (primary target ct dir env acquired st) as [[m1|e1] st1] eqn:Hp.
  - rewrite (settle_returned_primary _ _ _ _ _ _ Hp).
    destruct (cleanup env st1) as [[[]|e] st3]; [|discriminate].
    intros [= <- _]. exact (proj1 (primary_manifest _ _ _ _ _ _ Hp)).
  - rewrite (settle_failed_primary _ _ _ _ _ _ Hp).
    destruct (downloadFallbackContent ct dir "instagram" env _)
      as [[m2|e2] st2] eqn:Hf;
      destruct (cleanup env st2) as [[[]|e] st3]; try discriminate.
    intros [= <- _].
    destruct (fallback_manifest _ _ _ _ _ Hf) as [_ [Ht _]].
    destruct m2. exact Ht.
Qed.

Lemma thumbnail_set_exactly_for_images_witness :
  fst (settle Fixtures.post_url "post" Fixtures.downloads Fixtures.fine
              (Ok 0) (start (mkPool [] [] 1 0 [])))
  = Ok (mkManifest true
                   "http://localhost:3001/downloads/instagram_post_1111.jpg"
                   "instagram_post_1111.jpg" image 2048
                   "/srv/downloads/instagram_post_1111.jpg"
                   (Some "http://localhost:3001/downloads/instagram_post_1111.jpg")
                   None)
  /\ thumbnail
       (mkManifest true
                   "http://localhost:3001/downloads/instagram_post_1111.jpg"
                   "instagram_post_1111.jpg" image 2048
                   "/srv/downloads/instagram_post_1111.jpg"
                   (Some "http://localhost:3001/downloads/instagram_post_1111.jpg")
                   None)
     = Some "http://localhost:3001/downloads/instagram_post_1111.jpg".
Proof.
  assert (H : settle Fixtures.post_url "post" Fixtures.downloads Fixtures.fine
                     (Ok 0) (start (mkPool [] [] 1 0 []))
              = (Ok (mkManifest
                       true
                       "http://localhost:3001/downloads/instagram_post_1111.jpg"
                       "instagram_post_1111.jpg" image 2048
                       "/srv/downloads/instagram_post_1111.jpg"
                       (Some "http://localhost:3001/downloads/instagram_post_1111.jpg")
                       None),
                 snd (settle Fixtures.post_url "post" Fixtures.downloads
                             Fixtures.fine (Ok 0)
                             (start (mkPool [] [] 1 0 [])))))
    by (vm_compute; reflexivity).
  split; [now rewrite H|].
  exact (@thumbnail_set_exactly_for_images _ _ _ _ _ _ _ _ H).
Defined.

End InstagramClaims.

(** * Further properties *)

(** ** The browser pool *)

Module PoolExtras.

Import BrowserPool BrowserPoolFacts.

(** X1.  On every pool the module can reach, a call of [getBrowser] whose
    launch succeeds hands its caller a browser at once, reused or newly
    launched: no caller is ever queued. *)
Theorem getBrowser_always_hands_out (p : Pool) :
  reachable p ->
  exists b p',
    getBrowser (Ok tt) p = (Reused b, p')
    \/ getBrowser (Ok tt) p = (Launched b, p').
Proof.
  intros Hp. pose proof (reachable_queue_empty Hp) as Hq.
  unfold getBrowser.
  destruct (Js.pop (browserPool p)) as [[b rest]|].
  - eexists. eexists. left. reflexivity.
  - rewrite Hq. cbn. eexists. eexists. right. reflexivity.
Qed.

Lemma getBrowser_always_hands_out_witness :
  exists b p',
    getBrowser (Ok tt) (snd (call (CallRelease (Some 3)) empty))
    = (Reused b, p')
    \/ getBrowser (Ok tt) (snd (call (CallRelease (Some 3)) empty))
       = (Launched b, p').
Proof.
  apply getBrowser_always_hands_out. apply reach_call. apply reach_empty.
Defined.

Lemma closing_all isConnected close : forall visiting closed,
  (forall b, In b visiting -> close b = Ok tt) ->
  Shutdown.closing isConnected close visiting closed
  = (Ok tt, [], closed ++ filter isConnected visiting).
Proof.
  induction visiting as [|b rest IH]; intros closed Hok; cbn.
  - now rewrite app_nil_r.
  - destruct (isConnected b).
    + rewrite (Hok b (or_introl eq_refl)), IH by (intros; apply Hok; now right).
      now rewrite <- app_assoc.
    + apply IH. intros; apply Hok; now right.
Qed.

(** X2.  [closeAllBrowsers], when no [close] throws: the idle pool ends
    empty, the browsers closed are exactly the idle ones that were
    connected, last pushed first, and nothing else of the module changes;
    a browser that is checked out is not closed.  (Each idle browser is
    listed once, so each is asked [isConnected] once.) *)
Theorem closeAllBrowsers_closes_the_idle isConnected close (p : Pool) :
  NoDup (browserPool p) ->
  (forall b, In b (browserPool p) -> close b = Ok tt) ->
  Shutdown.closeAllBrowsers isConnected close p
  = (Ok tt,
     mkPool [] (browserQueue p) (launched p) (promises p) (resolved p),
     filter isConnected (rev (browserPool p)))
  /\ forall b, ~ In b (browserPool p) ->
               ~ In b (snd (Shutdown.closeAllBrowsers isConnected close p)).
Proof.
  intros _ Hok. unfold Shutdown.closeAllBrowsers.
  rewrite closing_all by (intros b Hb; apply Hok; now apply in_rev).
  split; [reflexivity|]. cbn. intros b Hb Hin.
  apply filter_In in Hin. destruct Hin as [Hin _]. now apply in_rev in Hin.
Qed.

Lemma closeAllBrowsers_closes_the_idle_witness :
  Shutdown.closeAllBrowsers (fun b => negb (Nat.eqb b 1)) (fun _ => Ok tt)
                            (mkPool [0; 1; 2] [] 4 0 [])
  = (Ok tt, mkPool [] [] 4 0 [], [2; 0]).
Proof.
  refine (proj1 (@closeAllBrowsers_closes_the_idle
                   (fun b => negb (Nat.eqb b 1)) (fun _ => Ok tt)
                   (mkPool [0; 1; 2] [] 4 0 []) _ _)).
  - repeat constructor; cbn; intuition discriminate.
  - reflexivity.
Defined.

(** X3.  [closeAllBrowsers], when a [close] throws: the loop ends there.
    The browsers pushed before the failing one stay idle and open, the
    failing one has left the pool without having been closed, and the
    error is the one of that [close].  (Each idle browser is listed
    once.) *)
Theorem closeAllBrowsers_stops_at_failure
        isConnected close (p : Pool) before b after e :
  NoDup (browserPool p) ->
  browserPool p = before ++ b :: after ->
  (forall x, In x after -> close x = Ok tt) ->
  isConnected b = true ->
  close b = Throw e ->
  Shutdown.closeAllBrowsers isConnected close p
  = (Throw e,
     mkPool before (browserQueue p) (launched p) (promises p) (resolved p),
     filter isConnected (rev after)).
Proof.
  intros _ Hpool Hok Hcon Hclose. unfold Shutdown.closeAllBrowsers.
  rewrite Hpool, rev_app_distr. cbn [rev]. rewrite <- app_assoc. cbn [app].
  assert (H : forall visiting closed,
             (forall x, In x visiting -> close x = Ok tt) ->
             Shutdown.closing isConnected close
                              (visiting ++ b :: rev before) closed
             = (Throw e, before, closed ++ filter isConnected visiting)).
  { induction visiting as [|x rest IH]; intros closed Hx; cbn.
    - rewrite Hcon, Hclose, rev_involutive, app_nil_r. reflexivity.
    - destruct (isConnected x).
      + rewrite (Hx x (or_introl eq_refl)), IH by (intros; apply Hx; now right).
        now rewrite <- app_assoc.
      + apply IH. intros; apply Hx; now right. }
  rewrite H by (intros x Hx; apply Hok; now apply in_rev). reflexivity.
Qed.

Lemma closeAllBrowsers_stops_at_failure_witness :
  Shutdown.closeAllBrowsers
    (fun _ => true)
    (fun b => if Nat.eqb b 1 then Throw "Protocol error" else Ok tt)
    (mkPool [0; 1; 2] [] 4 0 [])
  = (Throw "Protocol error", mkPool [0] [] 4 0 [], [2]).
Proof.
  refine (@closeAllBrowsers_stops_at_failure
            (fun _ => true)
            (fun b => if Nat.eqb b 1 then Throw "Protocol error" else Ok tt)
            (mkPool [0; 1; 2] [] 4 0 []) [0] 1 [2] "Protocol error"
            _ eq_refl _ eq_refl eq_refl).
  - repeat constructor; cbn; intuition discriminate.
  - intros x [<-|[]]. reflexivity.
Defined.

End PoolExtras.

(** ** The media extractor *)

Module ExtractorExtras.

Import Extractor ExtractorFacts ExtractorSpec.

Lemma pass_keepFirst (els : list Element) : forall media,
  fold_left step els media
  = media ++ keepFirst (urls media) (candidates els).
Proof.
  induction els as [|el l IH]; intros media; cbn [fold_left candidates flat_map].
  - now rewrite app_nil_r.
  - rewrite IH. unfold step. fold (candidates l).
    destruct (candidate el) as [c|]; cbn [app keepFirst]; [|reflexivity].
    destruct (has (urls media) (url c)); [reflexivity|].
    unfold urls. rewrite map_app, <- app_assoc. reflexivity.
Qed.

Lemma keepFirst_head (els : list Element) :
  hd_error (keepFirst [] (candidates els)) = firstCandidate els.
Proof.
  induction els as [|el l IH]; [reflexivity|].
  cbn [candidates flat_map firstCandidate]. fold (candidates l).
  destruct (candidate el) as [c|]; [reflexivity | exact IH].
Qed.

(** X4.  The extractor returns the candidates of the matched elements in
    the order the elements are visited (selector by selector, document
    order within a selector), keeping of several candidates with one URL
    the first; so the candidate the orchestrator downloads, [mediaData[0]],
    is the one of the first visited element that passes the source, domain
    and size tests. *)
Theorem evaluate_in_visiting_order (document : Document) :
  evaluate document = keepFirst [] (candidates (matched document))
  /\ hd_error (evaluate document) = firstCandidate (matched document).
Proof.
  rewrite evaluate_fold, pass_keepFirst. cbn [app urls map].
  split; [reflexivity | apply keepFirst_head].
Qed.

End ExtractorExtras.

(** ** The download orchestrator *)

Module InstagramMoreFacts.

Import BrowserPool Extractor Instagram InstagramFacts.

(** Once [newPage] has succeeded the try block ends with [page] set. *)
Lemma primary_page target ct dir env b st r st1 :
  primary target ct dir env (Ok b) st = (r, st1) ->
  newPage env = Ok tt ->
  page st1 = true.
Proof.
  destruct env, st. unfold_eff. intros H Hnew. subst.
  repeat split_outcome; injection H as <- <-; reflexivity.
Qed.

(** A try block that was given no browser throws at once. *)
Lemma primary_without_browser target ct dir env m st :
  primary target ct dir env (Throw m) st = (Throw m, st).
Proof. reflexivity. Qed.

(** The finally block when closing the page throws: the error is the
    completion and the handle is not released. *)
Lemma cleanup_close_fails env st e :
  page st = true ->
  pageClose env = Throw e ->
  cleanup env st
  = (Throw e,
     mkSt (pool st) (browserInstance st) true (downloadedFilePath st)
          (trace st ++ [EvPageClose])).
Proof.
  destruct env, st as [p bi pg path tr]; unfold_eff; intros -> ->.
  reflexivity.
Qed.

(** The finally block with neither page nor browser does nothing. *)
Lemma cleanup_nothing env st :
  page st = false -> browserInstance st = None ->
  cleanup env st = (Ok tt, st).
Proof.
  destruct env, st as [p bi pg path tr]; unfold_eff; intros -> ->.
  reflexivity.
Qed.

(** The finally block only adds to the trace. *)
Lemma cleanup_trace env st :
  exists tail, trace (snd (cleanup env st)) = trace st ++ tail.
Proof.
  destruct env, st as [p [b|] [|] path tr]; unfold_eff;
    repeat match goal with
           | |- context [match ?r with Ok _ => _ | Throw _ => _ end] =>
               is_var r; destruct r
           end;
    cbn [snd trace]; rewrite <- ?app_assoc; eexists;
    reflexivity || (symmetry; apply app_nil_r).
Qed.

Lemma pop_last {A} (arr : list A) x rest :
  Js.pop arr = Some (x, rest) -> arr = rest ++ [x].
Proof.
  revert x rest. induction arr as [|y arr IH]; intros x rest; [discriminate|].
  cbn [Js.pop]. destruct (Js.pop arr) as [[z r]|] eqn:Hp.
  - intros [= <- <-]. cbn. now rewrite (IH _ _ eq_refl).
  - intros [= <- <-]. destruct arr as [|z arr]; [reflexivity|].
    cbn [Js.pop] in Hp. destruct (Js.pop arr) as [[? ?]|]; discriminate.
Qed.

(** A request that was given the handle [b], with a page close that does
    not throw: whatever happens, its one release of [b] is its last
    event. *)
Lemma released_at_the_end target ct dir env b p :
  pageClose env = Ok tt ->
  exists events,
    trace (snd (settle target ct dir env (Ok b) (start p)))
    = events ++ [EvRelease b]
    /\ existsb isRelease events = false
    /\ pool (snd (settle target ct dir env (Ok b) (start p)))
       = releaseBrowser (Some b) p.
Proof.
  intros Hclose.
  destruct (primary target ct dir env (Ok b) (start p)) as [r st1] eqn:Hp.
  destruct (primary_state _ _ _ _ _ _ Hp) as [Hpool [Hb [events [Htr Hq]]]].
  cbn [start trace app pool] in Htr, Hpool.
  destruct r as [m|e1].
  - rewrite (settle_returned_primary _ _ _ _ _ _ Hp),
      (cleanup_state _ _ Hb Hclose). cbn [snd trace pool].
    exists (events ++ if page st1 then [EvPageClose] else []).
    rewrite Htr, Hpool, <- app_assoc. split; [reflexivity|split; [|reflexivity]].
    rewrite existsb_app, (quiet_no_release _ Hq). now destruct (page st1).
  - destruct (discard_partial_state st1)
      as [_ [Hdpool [Hdb [_ [unlinked [Hdtr Hdq]]]]]].
    rewrite (settle_failed_primary _ _ _ _ _ _ Hp).
    destruct (downloadFallbackContent ct dir "instagram" env
                                      (snd (discard_partial st1)))
      as [rf st2] eqn:Hf.
    destruct (fallback_state _ _ _ _ _ Hf)
      as [Hfpool [Hfb [_ [during [Hftr Hfq]]]]].
    assert (Hb2 : browserInstance st2 = Some b) by congruence.
    rewrite (cleanup_state _ _ Hb2 Hclose). cbn [snd trace pool].
    exists (events ++ unlinked ++ EvFallback :: during
              ++ if page st2 then [EvPageClose] else []).
    split; [|split].
    + rewrite Hftr, Hdtr, Htr, <- !app_assoc. cbn [app].
      rewrite <- !app_assoc. reflexivity.
    + rewrite !existsb_app. cbn [existsb isRelease].
      rewrite !existsb_app, (quiet_no_release _ Hq),
        (quiet_no_release _ Hdq), (no_release_forallb _ Hfq).
      now destruct (page st2).
    + rewrite Hfpool, Hdpool, Hpool. reflexivity.
Qed.

(** The name, the address and the path of a returned manifest. *)
Lemma settle_filename target ct dir env acquired st m st' :
  settle target ct dir env acquired st = (Ok m, st') ->
  success m = true
  /\ downloadUrl m = served (filename m)
  /\ localPath m = path_join dir (filename m)
  /\ (filename m
      = ("instagram_" ++ ct ++ "_" ++ uuid env ++ "."
           ++ match contentType m with video => "mp4" | image => "jpg" end)%string
      \/ filename m
         = ("instagram_" ++ ct ++ "_fallback_" ++ fallback_uuid env ++ "."
              ++ match contentType m with video => "mp4" | image => "jpg" end)%string).
Proof.
  destruct (primary target ct dir env acquired st) as [[m1|e1] st1] eqn:Hp.
  - rewrite (settle_returned_primary _ _ _ _ _ _ Hp).
    destruct (cleanup env st1) as [[[]|e] st3]; [|discriminate].
    intros [= <- _]. clear st3.
    destruct env, st, acquired; unfold_eff;
      repeat split_outcome; try discriminate Hp; injection Hp as <- <-;
      cbn; auto.
  - rewrite (settle_failed_primary _ _ _ _ _ _ Hp).
    destruct (downloadFallbackContent ct dir "instagram" env _)
      as [[m2|e2] st2] eqn:Hf;
      destruct (cleanup env st2) as [[[]|e] st3]; try discriminate.
    intros [= <- _]. clear Hp st3.
    destruct env, (snd (discard_partial st1)); unfold_eff;
      repeat split_outcome; try discriminate Hf; injection Hf as <- <-;
      cbn; auto.
Qed.

End InstagramMoreFacts.

Module InstagramExtras.

Import BrowserPool Extractor Instagram InstagramFacts InstagramMoreFacts.

(** X5.  A request that was given a handle releases it exactly once, as
    the last thing it does, whether the download succeeded, the fallback
    was served or both failed, as long as closing the page does not
    throw. *)
Theorem handle_released_once_on_every_path target ct dir env b p :
  pageClose env = Ok tt ->
  exists events,
    trace (snd (settle target ct dir env (Ok b) (start p)))
    = events ++ [EvRelease b]
    /\ existsb isRelease events = false
    /\ pool (snd (settle target ct dir env (Ok b) (start p)))
       = releaseBrowser (Some b) p.
Proof. apply released_at_the_end. Qed.

Lemma handle_released_once_on_every_path_witness :
  pageClose Fixtures.fine = Ok tt
  /\ exists events,
       trace (snd (settle Fixtures.post_url "reel" Fixtures.downloads
                          Fixtures.fine (Ok 0) (start (mkPool [] [] 1 0 []))))
       = events ++ [EvRelease 0]
       /\ existsb isRelease events = false
       /\ pool (snd (settle Fixtures.post_url "reel" Fixtures.downloads
                            Fixtures.fine (Ok 0)
                            (start (mkPool [] [] 1 0 []))))
          = releaseBrowser (Some 0) (mkPool [] [] 1 0 []).
Proof.
  split; [reflexivity|].
  exact (@handle_released_once_on_every_path
           Fixtures.post_url "reel" Fixtures.downloads Fixtures.fine 0
           (mkPool [] [] 1 0 []) eq_refl).
Defined.

(** X6.  When closing the page throws, the finally block ends before
    [releaseBrowser]: the request fails with the error of [page.close],
    even if the download had succeeded, and its handle is never given back
    to the pool. *)
Theorem page_close_failure_leaks_handle target ct dir env b p e :
  newPage env = Ok tt ->
  pageClose env = Throw e ->
  fst (settle target ct dir env (Ok b) (start p)) = Throw e
  /\ existsb isRelease
       (trace (snd (settle target ct dir env (Ok b) (start p)))) = false
  /\ pool (snd (settle target ct dir env (Ok b) (start p))) = p.
Proof.
  intros Hnew Hclose.
  destruct (primary target ct dir env (Ok b) (start p)) as [r st1] eqn:Hp.
  destruct (primary_state _ _ _ _ _ _ Hp) as [Hpool [Hb [events [Htr Hq]]]].
  pose proof (primary_page _ _ _ _ _ _ Hp Hnew) as Hpage.
  cbn [start trace app pool] in Htr, Hpool.
  destruct r as [m|e1].
  - rewrite (settle_returned_primary _ _ _ _ _ _ Hp),
      (cleanup_close_fails _ _ Hpage Hclose). cbn [fst snd trace pool].
    rewrite Htr, existsb_app, (quiet_no_release _ Hq). auto.
  - destruct (discard_partial_state st1)
      as [_ [Hdpool [_ [Hdpage [unlinked [Hdtr Hdq]]]]]].
    rewrite (settle_failed_primary _ _ _ _ _ _ Hp).
    destruct (downloadFallbackContent ct dir "instagram" env
                                      (snd (discard_partial st1)))
      as [rf st2] eqn:Hf.
    destruct (fallback_state _ _ _ _ _ Hf)
      as [Hfpool [_ [Hfpage [during [Hftr Hfq]]]]].
    assert (Hpage2 : page st2 = true) by congruence.
    rewrite (cleanup_close_fails _ _ Hpage2 Hclose). cbn [fst snd trace pool].
    split; [reflexivity|split; [|congruence]].
    rewrite Hftr, Hdtr, Htr, !existsb_app. cbn [existsb isRelease].
    rewrite (quiet_no_release _ Hq), (quiet_no_release _ Hdq),
      (no_release_forallb _ Hfq). reflexivity.
Qed.

Lemma page_close_failure_leaks_handle_witness :
  newPage MoreFixtures.close_fails = Ok tt
  /\ pageClose MoreFixtures.close_fails
     = Throw "Protocol error: Connection closed."
  /\ fst (primary Fixtures.post_url "post" Fixtures.downloads
                  MoreFixtures.close_fails (Ok 0)
                  (start (mkPool [] [] 1 0 [])))
     = Ok (mkManifest true
                      "http://localhost:3001/downloads/instagram_post_1111.jpg"
                      "instagram_post_1111.jpg" image 2048
                      "/srv/downloads/instagram_post_1111.jpg"
                      (Some "http://localhost:3001/downloads/instagram_post_1111.jpg")
                      None)
  /\ fst (settle Fixtures.post_url "post" Fixtures.downloads
                 MoreFixtures.close_fails (Ok 0)
                 (start (mkPool [] [] 1 0 [])))
     = Throw "Protocol error: Connection closed."
  /\ pool (snd (settle Fixtures.post_url "post" Fixtures.downloads
                       MoreFixtures.close_fails (Ok 0)
                       (start (mkPool [] [] 1 0 []))))
     = mkPool [] [] 1 0 [].
Proof.
  split; [reflexivity | split; [reflexivity | split; [vm_compute; reflexivity|]]].
  pose proof (@page_close_failure_leaks_handle
                Fixtures.post_url "post" Fixtures.downloads
                MoreFixtures.close_fails 0 (mkPool [] [] 1 0 [])
                "Protocol error: Connection closed." eq_refl eq_refl)
    as [H1 [_ H3]].
  split; [exact H1 | exact H3].
Defined.

(** X7.  When no browser can be launched, the request still answers: the
    fallback is entered at once, no page is opened or closed, nothing is
    released, the pool is as before, and the result is the fallback's,
    noted with the launch error, or the error naming the launch error. *)
Theorem launch_failure_goes_to_fallback target ct dir env p m :
  browserPool p = [] ->
  browserQueue p = [] ->
  launch env = Throw m ->
  exists st during,
    downloadInstagramContent target ct dir env p
    = Settled
        (match fst (downloadFallbackContent ct dir "instagram" env (start p))
         with
         | Ok fallbackResult => Ok (with_note fallbackResult (primaryNote m))
         | Throw _ => Throw (bothFailed m)
         end) st
    /\ trace st = EvFallback :: during
    /\ existsb isRelease during = false
    /\ existsb (fun ev => match ev with
                          | EvNewPage | EvPageClose => true
                          | _ => false
                          end) during = false
    /\ pool st = p.
Proof.
  intros Hpool Hqueue Hlaunch.
  unfold downloadInstagramContent, getBrowser, launchNewBrowser.
  rewrite Hpool, Hqueue, Hlaunch. cbn [Js.pop List.length Nat.leb MAX_BROWSERS].
  rewrite (settle_failed_primary _ _ _ _ _ _
             (primary_without_browser target ct dir env m (start p))).
  change (snd (discard_partial (start p))) with (start p).
  destruct (downloadFallbackContent ct dir "instagram" env (start p))
    as [rf st2] eqn:Hf.
  destruct (fallback_state _ _ _ _ _ Hf) as [Hfpool [Hfb [Hfpage _]]].
  rewrite (cleanup_nothing env st2 Hfpage Hfb). cbn [fst].
  assert (Htrace : exists during,
             trace st2 = EvFallback :: during
             /\ existsb isRelease during = false
             /\ existsb (fun ev => match ev with
                                   | EvNewPage | EvPageClose => true
                                   | _ => false
                                   end) during = false).
  { clear Hfpool Hfb Hfpage. destruct env. unfold_eff.
    repeat split_outcome; injection Hf as <- <-; cbn [trace app];
      eexists; repeat split. }
  destruct Htrace as [during [Ht [Hr Hn]]].
  exists st2, during. repeat split; assumption.
Qed.

Lemma launch_failure_goes_to_fallback_witness :
  launch MoreFixtures.no_browser = Throw "Failed to launch the browser process!"
  /\ exists st during,
       downloadInstagramContent Fixtures.post_url "story" Fixtures.downloads
                                MoreFixtures.no_browser empty
       = Settled
           (match fst (downloadFallbackContent
                         "story" Fixtures.downloads "instagram"
                         MoreFixtures.no_browser (start empty))
            with
            | Ok fallbackResult =>
                Ok (with_note fallbackResult
                      (primaryNote "Failed to launch the browser process!"))
            | Throw _ =>
                Throw (bothFailed "Failed to launch the browser process!")
            end) st
       /\ trace st = EvFallback :: during
       /\ existsb isRelease during = false
       /\ existsb (fun ev => match ev with
                             | EvNewPage | EvPageClose => true
                             | _ => false
                             end) during = false
       /\ pool st = empty.
Proof.
  split; [reflexivity|].
  exact (@launch_failure_goes_to_fallback
           Fixtures.post_url "story" Fixtures.downloads
           MoreFixtures.no_browser empty
           "Failed to launch the browser process!" eq_refl eq_refl eq_refl).
Defined.

(** X8.  The note of a returned manifest tells where it comes from: it
    is absent when the primary download produced the manifest, and it is
    the primary failure's message between fixed words when the fallback
    did; the fallback's own note never reaches the caller. *)
Theorem note_tells_origin target ct dir env acquired st m st' :
  settle target ct dir env acquired st = (Ok m, st') ->
  match fst (primary target ct dir env acquired st) with
  | Ok m1 => m = m1 /\ note m = None
  | Throw e1 =>
      note m = Some ("Primary download failed: " ++ e1
                       ++ ". Serving fallback content.")%string
  end
  /\ note m <> Some fallbackNote.
Proof.
  destruct (primary target ct dir env acquired st) as [[m1|e1] st1] eqn:Hp;
    cbn [fst].
  - rewrite (settle_returned_primary _ _ _ _ _ _ Hp).
    destruct (cleanup env st1) as [[[]|e] st3]; [|discriminate].
    intros [= <- _]. destruct (primary_manifest _ _ _ _ _ _ Hp) as [_ Hn].
    rewrite Hn. repeat split. discriminate.
  - rewrite (settle_failed_primary _ _ _ _ _ _ Hp).
    destruct (downloadFallbackContent ct dir "instagram" env _)
      as [[m2|e2] st2];
      destruct (cleanup env st2) as [[[]|e] st3]; try discriminate.
    intros [= <- _]. destruct m2. cbn [with_note note]. split; [reflexivity|].
    unfold primaryNote, fallbackNote. cbn. discriminate.
Qed.

Lemma note_tells_origin_witness :
  fst (primary Fixtures.post_url "post" Fixtures.downloads
               Fixtures.navigation_timeout (Ok 0)
               (start (mkPool [] [] 1 0 [])))
  = Throw "Navigation timeout of 45000 ms exceeded"
  /\ note (mkManifest
             true
             "http://localhost:3001/downloads/instagram_post_fallback_2222.jpg"
             "instagram_post_fallback_2222.jpg" image 4096
             "/srv/downloads/instagram_post_fallback_2222.jpg"
             (Some "http://localhost:3001/downloads/instagram_post_fallback_2222.jpg")
             (Some "Primary download failed: Navigation timeout of 45000 ms exceeded. Serving fallback content."))
     = Some ("Primary download failed: "
               ++ "Navigation timeout of 45000 ms exceeded"
               ++ ". Serving fallback content.")%string.
Proof.
  assert (H1 : fst (primary Fixtures.post_url "post" Fixtures.downloads
                            Fixtures.navigation_timeout (Ok 0)
                            (start (mkPool [] [] 1 0 [])))
               = Throw "Navigation timeout of 45000 ms exceeded")
    by (vm_compute; reflexivity).
  assert (H : settle Fixtures.post_url "post" Fixtures.downloads
                     Fixtures.navigation_timeout (Ok 0)
                     (start (mkPool [] [] 1 0 []))
              = (Ok (mkManifest
                       true
                       "http://localhost:3001/downloads/instagram_post_fallback_2222.jpg"
                       "instagram_post_fallback_2222.jpg" image 4096
                       "/srv/downloads/instagram_post_fallback_2222.jpg"
                       (Some "http://localhost:3001/downloads/instagram_post_fallback_2222.jpg")
                       (Some "Primary download failed: Navigation timeout of 45000 ms exceeded. Serving fallback content.")),
                 snd (settle Fixtures.post_url "post" Fixtures.downloads
                             Fixtures.navigation_timeout (Ok 0)
                             (start (mkPool [] [] 1 0 [])))))
    by (vm_compute; reflexivity).
  split; [exact H1|].
  pose proof (proj1 (@note_tells_origin _ _ _ _ _ _ _ _ H)) as Hnote.
  exact Hnote.
Defined.

(** X9.  When the try block fails after the destination file was named,
    the catch block unlinks that file before it enters the fallback. *)
Theorem partial_file_unlinked_before_fallback
        target ct dir env acquired st e1 st1 path :
  primary target ct dir env acquired st = (Throw e1, st1) ->
  downloadedFilePath st1 = Some path ->
  exists after,
    trace (snd (settle target ct dir env acquired st))
    = trace st1 ++ EvUnlink path :: EvFallback :: after.
Proof.
  intros Hp Hpath. rewrite (settle_failed_primary _ _ _ _ _ _ Hp).
  assert (Hd : trace (snd (discard_partial st1)) = trace st1 ++ [EvUnlink path]).
  { destruct st1 as [p0 bi pg dp tr]. cbn in Hpath. subst dp. reflexivity. }
  destruct (downloadFallbackContent ct dir "instagram" env
                                    (snd (discard_partial st1)))
    as [rf st2] eqn:Hf.
  destruct (fallback_state _ _ _ _ _ Hf) as [_ [_ [_ [during [Hftr _]]]]].
  destruct (cleanup_trace env st2) as [tail Htail].
  exists (during ++ tail).
  replace (trace (snd (match cleanup env st2 with
                       | (Ok _, st3) =>
                           (match rf with
                            | Ok m => Ok (with_note m (primaryNote e1))
                            | Throw _ => Throw (bothFailed e1)
                            end, st3)
                       | (Throw e, st3) => (Throw e, st3)
                       end)))
    with (trace (snd (cleanup env st2)))
    by (destruct (cleanup env st2) as [[[]|e] st3]; reflexivity).
  rewrite Htail, Hftr, Hd, <- !app_assoc. reflexivity.
Qed.

Lemma partial_file_unlinked_before_fallback_witness :
  exists after,
    trace (snd (settle Fixtures.post_url "post" Fixtures.downloads
                       MoreFixtures.fetch_refused (Ok 0)
                       (start (mkPool [] [] 1 0 []))))
    = [ EvNewPage; EvSetUserAgent; EvSetViewport;
        EvGoto "https://www.instagram.com/p/Cabc123/"; EvEvaluate;
        EvGet "https://scontent.cdninstagram.com/v/t51/photo.jpg" ]
      ++ EvUnlink "/srv/downloads/instagram_post_1111.jpg"
      :: EvFallback :: after.
Proof.
  assert (H : primary Fixtures.post_url "post" Fixtures.downloads
                      MoreFixtures.fetch_refused (Ok 0)
                      (start (mkPool [] [] 1 0 []))
              = (Throw "Request failed with status code 403",
                 mkSt (mkPool [] [] 1 0 []) (Some 0) true
                      (Some "/srv/downloads/instagram_post_1111.jpg")
                      [ EvNewPage; EvSetUserAgent; EvSetViewport;
                        EvGoto "https://www.instagram.com/p/Cabc123/";
                        EvEvaluate;
                        EvGet "https://scontent.cdninstagram.com/v/t51/photo.jpg" ]))
    by (vm_compute; reflexivity).
  exact (@partial_file_unlinked_before_fallback _ _ _ _ _ _ _ _ _ H eq_refl).
Defined.

(** X10.  A request on a pool with no waiter, with a launch and a page
    close that succeed, leaves the browser it used idle: a pool that had an
    idle browser is exactly as before (nothing is launched), an empty pool
    holds the one browser launched for the request.  Requests served one
    after the other therefore share a single browser. *)
Theorem request_gives_browser_back target ct dir env p :
  browserQueue p = [] ->
  launch env = Ok tt ->
  pageClose env = Ok tt ->
  exists r st,
    downloadInstagramContent target ct dir env p = Settled r st
    /\ pool st = match browserPool p with
                 | [] => mkPool [launched p] [] (S (launched p))
                                (promises p) (resolved p)
                 | _ :: _ => p
                 end.
Proof.
  intros Hq Hlaunch Hclose. destruct p as [idle queue n k res].
  cbn in Hq. subst queue.
  unfold downloadInstagramContent, getBrowser, launchNewBrowser.
  cbn [browserPool browserQueue launched promises resolved].
  rewrite Hlaunch.
  destruct (Js.pop idle) as [[b rest]|] eqn:Hpop.
  - apply pop_last in Hpop. subst idle.
    destruct (released_at_the_end target ct dir env b
                                  (mkPool rest [] n k res) Hclose)
      as [events [_ [_ Hpool]]].
    destruct (settle target ct dir env (Ok b) (start (mkPool rest [] n k res)))
      as [r st]. exists r, st. split; [reflexivity|].
    cbn [snd] in Hpool. rewrite Hpool.
    destruct rest; reflexivity.
  - assert (idle = []) as ->.
    { destruct idle as [|x l]; [reflexivity|]. cbn in Hpop.
      destruct (Js.pop l) as [[? ?]|]; discriminate. }
    cbn -[settle].
    destruct (released_at_the_end target ct dir env n
                                  (mkPool [] [] (S n) k res) Hclose)
      as [events [_ [_ Hpool]]].
    match goal with
    | |- context [settle ?a ?b ?c ?d ?e ?f] =>
        change (pool (snd (settle a b c d e f))
                = releaseBrowser (Some n) (mkPool [] [] (S n) k res)) in Hpool;
        destruct (settle a b c d e f) as [r st]
    end.
    exists r, st. split; [reflexivity|].
    cbn [snd] in Hpool. rewrite Hpool. reflexivity.
Qed.

Lemma request_gives_browser_back_witness :
  exists r st,
    downloadInstagramContent Fixtures.post_url "reel" Fixtures.downloads
                             Fixtures.fine (mkPool [0] [] 1 0 [])
    = Settled r st
    /\ pool st = mkPool [0] [] 1 0 [].
Proof.
  exact (@request_gives_browser_back
           Fixtures.post_url "reel" Fixtures.downloads Fixtures.fine
           (mkPool [0] [] 1 0 []) eq_refl eq_refl eq_refl).
Defined.



End InstagramExtras.

(** ** The test content service *)

Module TestContentExtras.

Import Extractor Instagram InstagramFacts TestContent.

(** The key a content type is served under. *)
Lemma choose_key ct coin :
  fst (fst (choose ct coin))
  = match keyOf ct with Some k => k | None => post end.
Proof.
  unfold choose. destruct (keyOf ct) as [[| | |]|]; destruct coin; reflexivity.
Qed.

Lemma choose_kind ct coin :
  snd (fst (choose ct coin))
  = match keyOf ct with
    | Some reel | Some highlight => video
    | _ => if coin then video else image
    end.
Proof.
  unfold choose. destruct (keyOf ct) as [[| | |]|]; destruct coin; reflexivity.
Qed.

(** X12.  Whatever content type is asked for and however the coin falls,
    the URL the test service fetches is the table's entry for the key and
    the kind it chose: the branch that falls back to the post image when no
    URL was determined is never taken. *)
Theorem choose_reads_the_table ct coin :
  pick (testContent (fst (fst (choose ct coin)))) (snd (fst (choose ct coin)))
  = Some (snd (choose ct coin)).
Proof.
  unfold choose. destruct (keyOf ct) as [[| | |]|]; destruct coin; reflexivity.
Qed.

(** X13.  A manifest of the test service always carries a thumbnail (the
    served URL for an image, a fixed placeholder for a video, never null)
    and the fixed test note. *)
Theorem test_manifest_has_thumbnail target ct dir coin env st m st' :
  downloadTestContent target ct dir coin env st = (Ok m, st') ->
  thumbnail m = Some (match contentType m with
                      | image => downloadUrl m
                      | video => placeholder
                      end)
  /\ note m = Some testNote.
Proof.
  intros H. unfold downloadTestContent in H.
  destruct (choose ct coin) as [[key kind] mediaUrl].
  destruct env, st. unfold clear_downloadedFilePath in H. unfold_eff.
  destruct kind;
    repeat split_outcome; try discriminate H; injection H as <- <-;
    split; reflexivity.
Qed.

Lemma test_manifest_has_thumbnail_witness :
  fst (downloadTestContent "https://example.com/demo" "reel"
                           Fixtures.downloads true Fixtures.fine
                           (start BrowserPool.empty))
  = Ok (mkManifest true "http://localhost:3001/downloads/test_reel_1111.mp4"
                   "test_reel_1111.mp4" video 2048
                   "/srv/downloads/test_reel_1111.mp4"
                   (Some "https://via.placeholder.com/300x300?text=Video+Test")
                   (Some testNote))
  /\ thumbnail
       (mkManifest true "http://localhost:3001/downloads/test_reel_1111.mp4"
                   "test_reel_1111.mp4" video 2048
                   "/srv/downloads/test_reel_1111.mp4"
                   (Some "https://via.placeholder.com/300x300?text=Video+Test")
                   (Some testNote))
     = Some placeholder.
Proof.
  assert (H : downloadTestContent "https://example.com/demo" "reel"
                                  Fixtures.downloads true Fixtures.fine
                                  (start BrowserPool.empty)
              = (Ok (mkManifest
                       true "http://localhost:3001/downloads/test_reel_1111.mp4"
                       "test_reel_1111.mp4" video 2048
                       "/srv/downloads/test_reel_1111.mp4"
                       (Some "https://via.placeholder.com/300x300?text=Video+Test")
                       (Some testNote)),
                 snd (downloadTestContent "https://example.com/demo" "reel"
                                          Fixtures.downloads true Fixtures.fine
                                          (start BrowserPool.empty))))
    by (vm_compute; reflexivity).
  split; [now rewrite H|].
  exact (proj1 (@test_manifest_has_thumbnail _ _ _ _ _ _ _ _ H)).
Defined.

(** X14.  The kind and the name of a test manifest: [reel] and
    [highlight] always give a video, [post], [story] and every content
    type that is not a key of the table give a video or an image as the
    coin falls; a content type that is not a key is served, and named, as
    [post]. *)
Theorem test_kind_and_name target ct dir coin env st m st' :
  downloadTestContent target ct dir coin env st = (Ok m, st') ->
  contentType m
  = match keyOf ct with
    | Some reel | Some highlight => video
    | _ => if coin then video else image
    end
  /\ filename m
     = ("test_"
          ++ keyName (match keyOf ct with Some k => k | None => post end)
          ++ "_" ++ uuid env ++ "."
          ++ match contentType m with video => "mp4" | image => "jpg" end)%string.
Proof.
  intros H. unfold downloadTestContent in H.
  rewrite <- (choose_key ct coin), <- (choose_kind ct coin).
  destruct (choose ct coin) as [[key kind] mediaUrl]. cbn [fst snd].
  destruct env, st. unfold clear_downloadedFilePath in H. unfold_eff.
  destruct kind;
    repeat split_outcome; try discriminate H; injection H as <- <-;
    split; reflexivity.
Qed.

Lemma test_kind_and_name_witness :
  fst (downloadTestContent "https://example.com/demo" "video"
                           Fixtures.downloads false Fixtures.fine
                           (start BrowserPool.empty))
  = Ok (mkManifest true "http://localhost:3001/downloads/test_post_1111.jpg"
                   "test_post_1111.jpg" image 2048
                   "/srv/downloads/test_post_1111.jpg"
                   (Some "http://localhost:3001/downloads/test_post_1111.jpg")
                   (Some testNote))
  /\ keyOf "video" = None
  /\ contentType
       (mkManifest true "http://localhost:3001/downloads/test_post_1111.jpg"
                   "test_post_1111.jpg" image 2048
                   "/srv/downloads/test_post_1111.jpg"
                   (Some "http://localhost:3001/downloads/test_post_1111.jpg")
                   (Some testNote))
     = image.
Proof.
  assert (H : downloadTestContent "https://example.com/demo" "video"
                                  Fixtures.downloads false Fixtures.fine
                                  (start BrowserPool.empty)
              = (Ok (mkManifest
                       true "http://localhost:3001/downloads/test_post_1111.jpg"
                       "test_post_1111.jpg" image 2048
                       "/srv/downloads/test_post_1111.jpg"
                       (Some "http://localhost:3001/downloads/test_post_1111.jpg")
                       (Some testNote)),
                 snd (downloadTestContent "https://example.com/demo" "video"
                                          Fixtures.downloads false Fixtures.fine
                                          (start BrowserPool.empty))))
    by (vm_compute; reflexivity).
  split; [now rewrite H | split; [reflexivity|]].
  exact (proj1 (@test_kind_and_name _ _ _ _ _ _ _ _ H)).
Defined.

(** X15.  A failed test download has no fallback: the file it had named
    is unlinked as the last thing it does and the error thrown is the
    failure's message after a fixed prefix. *)
Theorem test_failure_unlinks_and_rethrows target ct dir coin env st e st' :
  downloadTestContent target ct dir coin env st = (Throw e, st') ->
  exists inner path events,
    e = ("Test download failed: " ++ inner)%string
    /\ downloadedFilePath st' = Some path
    /\ trace st' = trace st ++ events ++ [EvUnlink path]
    /\ existsb isFallback events = false.
Proof.
  intros H. unfold downloadTestContent in H.
  destruct (choose ct coin) as [[key kind] mediaUrl].
  destruct env, st. unfold clear_downloadedFilePath in H. unfold_eff.
  destruct kind;
    repeat split_outcome; try discriminate H; injection H as <- <-;
    cbn [trace downloadedFilePath]; rewrite <- ?app_assoc; cbn [app];
    eexists; eexists;
    match goal with
    | |- exists _, _ /\ _ /\ _ ++ ?l = _ /\ _ => exists (removelast l)
    end;
    (split; [reflexivity | split; [reflexivity | split; reflexivity]]).
Qed.

Lemma test_failure_unlinks_and_rethrows_witness :
  exists inner path events,
    "Test download failed: Request failed with status code 403"
    = ("Test download failed: " ++ inner)%string
    /\ downloadedFilePath
         (snd (downloadTestContent "https://example.com/demo" "story"
                                   Fixtures.downloads false
                                   MoreFixtures.fetch_refused
                                   (start BrowserPool.empty)))
       = Some path
    /\ trace (snd (downloadTestContent "https://example.com/demo" "story"
                                       Fixtures.downloads false
                                       MoreFixtures.fetch_refused
                                       (start BrowserPool.empty)))
       = trace (start BrowserPool.empty) ++ events ++ [EvUnlink path]
    /\ existsb isFallback events = false.
Proof.
  assert (H : downloadTestContent "https://example.com/demo" "story"
                                  Fixtures.downloads false
                                  MoreFixtures.fetch_refused
                                  (start BrowserPool.empty)
              = (Throw "Test download failed: Request failed with status code 403",
                 snd (downloadTestContent "https://example.com/demo" "story"
                                          Fixtures.downloads false
                                          MoreFixtures.fetch_refused
                                          (start BrowserPool.empty))))
    by (vm_compute; reflexivity).
  exact (@test_failure_unlinks_and_rethrows _ _ _ _ _ _ _ _ H).
Defined.

End TestContentExtras.

(** ** The server and the client of its download route *)

Module ServerFacts.

Import Server.

Lemma arrayIncludes_In (arr : list string) (x : string) :
  JsMore.arrayIncludes arr x = true <-> In x arr.
Proof.
  unfold JsMore.arrayIncludes. rewrite existsb_exists. split.
  - intros [y [Hin Heq]]. apply String.eqb_eq in Heq. now subst.
  - intros Hin. exists x. split; [exact Hin | apply String.eqb_refl].
Qed.

(** Splits on the next test of a route. *)
Ltac next_test :=
  match goal with
  | H : context [match ?f with NotAString => _ | Str _ => _ end] |- _ =>
      destruct f eqn:?
  | H : context [if ?b then _ else _] |- _ => destruct b eqn:?
  | |- context [match ?f with NotAString => _ | Str _ => _ end] =>
      destruct f eqn:?
  | |- context [if ?b then _ else _] => destruct b eqn:?
  end.

(** Whatever the validation answers by itself is a refusal with status
    400. *)
Lemma check_answers_400 body r :
  check body = Answer r -> exists text, r = Refused 400 text.
Proof.
  unfold check. intros H.
  repeat next_test; try discriminate H; injection H as <-; eexists;
    reflexivity.
Qed.

(** What is known once the validation has chosen a service. *)
Lemma check_call body service u ct :
  check body = Call service u ct ->
  exists p c,
    url body = Str u /\ platform body = Str p /\ contentType body = Str c
    /\ ct = Js.toLowerCase c
    /\ (JsMore.startsWith "http://" u = true
        \/ JsMore.startsWith "https://" u = true)
    /\ JsMore.arrayIncludes allowedPlatforms (Js.toLowerCase p) = true
    /\ JsMore.arrayIncludes allowedContentTypes ct = true
    /\ match service with
       | TestService =>
           Js.includes "test-content" u = true \/ Js.includes "demo" u = true
           \/ Js.toLowerCase p = "test"
       | InstagramService =>
           Js.toLowerCase p = "instagram"
           /\ Js.includes "test-content" u = false
           /\ Js.includes "demo" u = false
       | FacebookService =>
           Js.toLowerCase p = "facebook"
           /\ Js.includes "test-content" u = false
           /\ Js.includes "demo" u = false
       end.
Proof.
  unfold check. intros H.
  destruct (url body) as [|u0]; [discriminate|].
  destruct (String.eqb u0 EmptyString || JsMore.trimsToEmpty u0);
    [discriminate|].
  destruct (negb (JsMore.startsWith "http://" u0)
            && negb (JsMore.startsWith "https://" u0)) eqn:Hscheme;
    [discriminate|].
  destruct (platform body) as [|p]; [discriminate|].
  destruct (String.eqb p EmptyString
            || negb (JsMore.arrayIncludes allowedPlatforms (Js.toLowerCase p)))
    eqn:Hp; [discriminate|].
  destruct (contentType body) as [|c]; [discriminate|].
  destruct (String.eqb c EmptyString
            || negb (JsMore.arrayIncludes allowedContentTypes
                                          (Js.toLowerCase c)))
    eqn:Hc; [discriminate|].
  apply orb_false_iff in Hp, Hc. destruct Hp as [_ Hp], Hc as [_ Hc].
  apply negb_false_iff in Hp, Hc.
  assert (Hs : JsMore.startsWith "http://" u0 = true
               \/ JsMore.startsWith "https://" u0 = true).
  { destruct (JsMore.startsWith "http://" u0); [now left|].
    destruct (JsMore.startsWith "https://" u0); [now right|discriminate]. }
  exists p, c.
  destruct (Js.includes "test-content" u0) eqn:Ht; cbn [orb] in H.
  { injection H as <- <- <-. repeat split; auto. }
  destruct (Js.includes "demo" u0) eqn:Hd; cbn [orb] in H.
  { injection H as <- <- <-. repeat split; auto. }
  destruct (String.eqb (Js.toLowerCase p) "test") eqn:H1.
  { injection H as <- <- <-. apply String.eqb_eq in H1. repeat split; auto. }
  destruct (String.eqb (Js.toLowerCase p) "instagram") eqn:H2.
  { injection H as <- <- <-. apply String.eqb_eq in H2. repeat split; auto. }
  destruct (String.eqb (Js.toLowerCase p) "facebook") eqn:H3.
  { injection H as <- <- <-. apply String.eqb_eq in H3. repeat split; auto. }
  discriminate.
Qed.

(** A string that starts with a scheme is not blank. *)
Lemma scheme_not_blank u :
  JsMore.startsWith "http://" u = true \/ JsMore.startsWith "https://" u = true ->
  String.eqb u EmptyString || JsMore.trimsToEmpty u = false.
Proof.
  unfold JsMore.startsWith.
  intros [H|H]; (destruct u as [|c u]; [discriminate H|]);
    cbn [String.prefix] in H;
    (destruct (ascii_dec "h" c) as [<-|_]; [|discriminate H]); reflexivity.
Qed.

End ServerFacts.

Module ServerExtras.

Import Server ServerFacts.

(** X16.  A request whose content type is one the download form offers
    but the route does not list, [post] or [highlight] in any letter case,
    is refused with status 400 whatever its URL and platform are; no
    service is called for it. *)
Theorem post_and_highlight_are_refused nodeEnv services body c :
  contentType body = Str c ->
  Js.toLowerCase c = "post" \/ Js.toLowerCase c = "highlight" ->
  exists text, download nodeEnv services body = Refused 400 text.
Proof.
  intros Hc Hlow. unfold download.
  destruct (check body) as [r|service u ct] eqn:Hcheck.
  - destruct (check_answers_400 _ Hcheck) as [text ->]. now exists text.
  - destruct (check_call _ Hcheck)
      as [p [c' [_ [_ [Hc' [Hct [_ [_ [Hallowed _]]]]]]]]].
    rewrite Hc in Hc'. injection Hc' as <-. subst ct.
    destruct Hlow as [H|H]; rewrite H in Hallowed; discriminate Hallowed.
Qed.

Lemma post_and_highlight_are_refused_witness :
  contentType Bodies.form_default = Str "post"
  /\ exists text,
       download None (fun _ _ _ => Throw "not called") Bodies.form_default
       = Refused 400 text.
Proof.
  split; [reflexivity|].
  exact (@post_and_highlight_are_refused
           None (fun _ _ _ => Throw "not called") Bodies.form_default "post"
           eq_refl (or_introl eq_refl)).
Defined.

(** X17.  The route's last refusal, [Unsupported platform.], is never
    sent: a platform that passed the validation is one of the three the
    dispatch knows. *)
Theorem unsupported_platform_is_never_sent nodeEnv services body :
  download nodeEnv services body <> Refused 400 unsupported.
Proof.
  unfold download. destruct (check body) as [r|service u ct] eqn:Hcheck.
  - intros ->. revert Hcheck. unfold check.
    repeat next_test; try discriminate;
      try (intros [= H]; vm_compute in H; discriminate H).
    match goal with
    | H : _ || negb (JsMore.arrayIncludes allowedPlatforms ?lp) = false |- _ =>
        apply orb_false_iff in H; destruct H as [_ H];
        apply negb_false_iff in H; unfold JsMore.arrayIncludes in H;
        cbn [allowedPlatforms existsb] in H
    end.
    repeat match goal with
           | H : _ || _ = false |- _ =>
               apply orb_false_iff in H; destruct H
           end.
    repeat match goal with
           | H : String.eqb ?a ?b = false |- _ => rewrite H in *; clear H
           end.
    discriminate.
  - destruct (services service u ct); [discriminate|].
    unfold errorMiddleware. discriminate.
Qed.

(** X18.  Whenever the route calls a service, the URL starts with
    [http://] or [https://], the content type handed over is the request's
    in lower case and one of image, video, reel, story, and the service is
    the one of the platform, unless the URL contains [test-content] or
    [demo] or the platform is [test]: then, and only then, it is the test
    service. *)
Theorem called_service_is_validated body service u ct :
  check body = Call service u ct ->
  exists p c,
    url body = Str u /\ platform body = Str p /\ contentType body = Str c
    /\ ct = Js.toLowerCase c
    /\ (JsMore.startsWith "http://" u = true
        \/ JsMore.startsWith "https://" u = true)
    /\ In ct [ "image"; "video"; "reel"; "story" ]
    /\ match service with
       | TestService =>
           Js.includes "test-content" u = true \/ Js.includes "demo" u = true
           \/ Js.toLowerCase p = "test"
       | InstagramService =>
           Js.toLowerCase p = "instagram"
           /\ Js.includes "test-content" u = false
           /\ Js.includes "demo" u = false
       | FacebookService =>
           Js.toLowerCase p = "facebook"
           /\ Js.includes "test-content" u = false
           /\ Js.includes "demo" u = false
       end.
Proof.
  intros H. destruct (check_call _ H)
    as [p [c [Hu [Hp [Hc [Hct [Hs [_ [Hallowed Hsvc]]]]]]]]].
  exists p, c. repeat (split; [assumption|]).
  split; [|exact Hsvc]. now apply arrayIncludes_In in Hallowed.
Qed.

Lemma called_service_is_validated_witness :
  check Bodies.story
  = Call InstagramService "https://www.instagram.com/stories/someone/1/" "story"
  /\ In "story" [ "image"; "video"; "reel"; "story" ].
Proof.
  assert (H : check Bodies.story
              = Call InstagramService
                     "https://www.instagram.com/stories/someone/1/" "story")
    by (vm_compute; reflexivity).
  split; [exact H|].
  destruct (@called_service_is_validated _ _ _ _ H)
    as [p [c [_ [_ [_ [_ [_ [Hin _]]]]]]]].
  exact Hin.
Defined.

(** X19.  A valid request whose URL contains [demo] is served by the test
    service whatever its platform is: an Instagram address that happens to
    contain these letters never reaches the Instagram service. *)
Theorem demo_in_url_is_served_test_content body u p c :
  url body = Str u -> platform body = Str p -> contentType body = Str c ->
  JsMore.startsWith "http://" u = true \/ JsMore.startsWith "https://" u = true ->
  JsMore.arrayIncludes allowedPlatforms (Js.toLowerCase p) = true ->
  JsMore.arrayIncludes allowedContentTypes (Js.toLowerCase c) = true ->
  Js.includes "demo" u = true ->
  check body = Call TestService u (Js.toLowerCase c).
Proof.
  intros Hu Hp Hc Hs Hap Hac Hdemo. unfold check.
  rewrite Hu, Hp, Hc, (scheme_not_blank _ Hs), Hap, Hac, Hdemo.
  assert (Hscheme : negb (JsMore.startsWith "http://" u)
                    && negb (JsMore.startsWith "https://" u) = false).
  { destruct Hs as [-> | ->]; [reflexivity|]. apply andb_false_r. }
  rewrite Hscheme.
  assert (Hpe : String.eqb p EmptyString = false).
  { destruct p; [discriminate Hap | reflexivity]. }
  assert (Hce : String.eqb c EmptyString = false).
  { destruct c; [discriminate Hac | reflexivity]. }
  rewrite Hpe, Hce. cbn [negb orb]. now rewrite orb_true_r.
Qed.

Lemma demo_in_url_is_served_test_content_witness :
  check Bodies.demo_reel
  = Call TestService "https://www.instagram.com/reel/Cdemo42/"
         (Js.toLowerCase "Reel").
Proof.
  refine (@demo_in_url_is_served_test_content
            Bodies.demo_reel "https://www.instagram.com/reel/Cdemo42/"
            "Instagram" "Reel" eq_refl eq_refl eq_refl (or_intror _) _ _ _);
    vm_compute; reflexivity.
Defined.

(** X20.  An error thrown by the called service is answered with status
    500 and the fixed text [An unexpected error occurred on the server.];
    the error's own message is sent, as [details], only when [NODE_ENV] is
    [development]. *)
Theorem service_error_is_reported_as_unexpected
        nodeEnv services body service u ct text :
  check body = Call service u ct ->
  services service u ct = Throw text ->
  download nodeEnv services body
  = Report 500 "An unexpected error occurred on the server."
           (match nodeEnv with
            | Some e => if String.eqb e "development" then Some text else None
            | None => None
            end)
           None.
Proof.
  intros Hcheck Hthrow. unfold download. rewrite Hcheck, Hthrow. reflexivity.
Qed.

Lemma service_error_is_reported_as_unexpected_witness :
  download (Some "production")
           (fun _ _ _ => Throw "Failed to download content from Instagram or provide fallback: No media found in Instagram post for given URL.")
           Bodies.story
  = Report 500 "An unexpected error occurred on the server." None None.
Proof.
  assert (H : check Bodies.story
              = Call InstagramService
                     "https://www.instagram.com/stories/someone/1/" "story")
    by (vm_compute; reflexivity).
  exact (@service_error_is_reported_as_unexpected
           (Some "production") _ Bodies.story _ _ _ _ H eq_refl).
Defined.

(** X21.  What the client's [requestDownload] makes of the route's
    answer: a sent manifest is returned; every refusal of the validation is
    thrown as [Download request failed], its own text being lost; every
    error of a service is thrown as the middleware's fixed text.  No other
    error text reaches the caller. *)
Theorem failed_download_shows_one_of_two_texts nodeEnv services body :
  (exists m,
      download nodeEnv services body = Sent m
      /\ Api.requestDownload (Ok (download nodeEnv services body))
         = Ok (Sent m))
  \/ (exists text,
        download nodeEnv services body = Refused 400 text
        /\ Api.requestDownload (Ok (download nodeEnv services body))
           = Throw "Download request failed")
  \/ (exists service u ct text,
        check body = Call service u ct
        /\ services service u ct = Throw text
        /\ Api.requestDownload (Ok (download nodeEnv services body))
           = Throw "An unexpected error occurred on the server.").
Proof.
  unfold download. destruct (check body) as [r|service u ct] eqn:Hcheck.
  - destruct (check_answers_400 _ Hcheck) as [text ->].
    right. left. exists text. split; reflexivity.
  - destruct (services service u ct) as [m|text] eqn:Hs.
    + left. exists m. split; reflexivity.
    + right. right. exists service, u, ct, text.
      split; [reflexivity | split; [exact Hs | reflexivity]].
Qed.

(** X22.  Through the route, the fallback of the Instagram service gives
    an image only for the content type [image]: the three other content
    types the route lets through, [video], [reel] and [story], all get the
    sample video. *)
Theorem fallback_serves_image_only_for_image
        body service u ct dir platform env st m st2 :
  check body = Call service u ct ->
  Instagram.downloadFallbackContent ct dir platform env st = (Ok m, st2) ->
  Instagram.contentType m
  = if String.eqb ct "image" then Extractor.image else Extractor.video.
Proof.
  intros Hcheck Hf.
  destruct (check_call _ Hcheck)
    as [p [c [_ [_ [_ [_ [_ [_ [Hallowed _]]]]]]]]].
  destruct (InstagramFacts.fallback_manifest _ _ _ _ _ Hf) as [Hk _].
  rewrite Hk. apply arrayIncludes_In in Hallowed.
  destruct Hallowed as [<-|[<-|[<-|[<-|[]]]]]; reflexivity.
Qed.

Lemma fallback_serves_image_only_for_image_witness :
  check Bodies.story
  = Call InstagramService "https://www.instagram.com/stories/someone/1/" "story"
  /\ Instagram.contentType
       (Instagram.mkManifest
          true
          "http://localhost:3001/downloads/instagram_story_fallback_2222.mp4"
          "instagram_story_fallback_2222.mp4" Extractor.video 4096
          "/srv/downloads/instagram_story_fallback_2222.mp4" None
          (Some Instagram.fallbackNote))
     = Extractor.video.
Proof.
  assert (H : check Bodies.story
              = Call InstagramService
                     "https://www.instagram.com/stories/someone/1/" "story")
    by (vm_compute; reflexivity).
  assert (Hf : Instagram.downloadFallbackContent
                 "story" Fixtures.downloads "instagram"
                 Fixtures.navigation_timeout
                 (Instagram.start BrowserPool.empty)
               = (Ok (Instagram.mkManifest
                        true
                        "http://localhost:3001/downloads/instagram_story_fallback_2222.mp4"
                        "instagram_story_fallback_2222.mp4" Extractor.video 4096
                        "/srv/downloads/instagram_story_fallback_2222.mp4" None
                        (Some Instagram.fallbackNote)),
                  snd (Instagram.downloadFallbackContent
                         "story" Fixtures.downloads "instagram"
                         Fixtures.navigation_timeout
                         (Instagram.start BrowserPool.empty))))
    by (vm_compute; reflexivity).
  split; [exact H|].
  exact (@fallback_serves_image_only_for_image _ _ _ _ _ _ _ _ _ _ H Hf).
Defined.

End ServerExtras.

(** ** The delete route *)

Module DeleteFacts.

Import Server.

Lemma allChars_app f (s t : string) :
  allChars f (s ++ t) = allChars f s && allChars f t.
Proof.
  induction s as [|c s IH]; [reflexivity|].
  cbn [append allChars]. now rewrite IH, andb_assoc.
Qed.

Lemma allChars_impl (f g : ascii -> bool) (s : string) :
  (forall c, f c = true -> g c = true) ->
  allChars f s = true -> allChars g s = true.
Proof.
  intros Hfg. induction s as [|c s IH]; [reflexivity|].
  cbn [allChars]. intros H. apply andb_true_iff in H. destruct H as [Hc Hs].
  now rewrite (Hfg c Hc), IH.
Qed.

(** A needle is not found across a stretch that lacks its first
    character. *)
Lemma includes_past (n0 : ascii) (ntail s rest : string) :
  allChars (fun c => negb (Ascii.eqb c n0)) s = true ->
  Js.includes (String n0 ntail) (s ++ rest)
  = Js.includes (String n0 ntail) rest.
Proof.
  induction s as [|c s IH]; [reflexivity|].
  cbn [allChars append]. intros H. apply andb_true_iff in H.
  destruct H as [Hc Hs]. apply negb_true_iff in Hc.
  change (Js.includes (String n0 ntail) (String c (s ++ rest)))
    with (String.prefix (String n0 ntail) (String c (s ++ rest))
          || Js.includes (String n0 ntail) (s ++ rest)).
  cbn [String.prefix]. destruct (ascii_dec n0 c) as [<-|_].
  - now rewrite Ascii.eqb_refl in Hc.
  - now rewrite IH.
Qed.

Lemma uuid_char_is_name_char c :
  Uuid.isUuidChar c = true -> isNameChar c = true.
Proof.
  destruct c as [[] [] [] [] [] [] [] []]; vm_compute; intros H;
    reflexivity || discriminate H.
Qed.

Lemma uuid_char_is_no_slash c :
  Uuid.isUuidChar c = true -> negb (Ascii.eqb c "/") = true.
Proof.
  destruct c as [[] [] [] [] [] [] [] []]; vm_compute; intros H;
    reflexivity || discriminate H.
Qed.

Lemma uuid_char_is_no_dot c :
  Uuid.isUuidChar c = true -> negb (Ascii.eqb c ".") = true.
Proof.
  destruct c as [[] [] [] [] [] [] [] []]; vm_compute; intros H;
    reflexivity || discriminate H.
Qed.

(** A name made of a clean stem, a UUID, a dot and a clean extension
    passes both tests of the delete route. *)
Lemma generated_name_is_accepted (stem id ext : string) :
  allChars isNameChar stem = true ->
  allChars (fun c => negb (Ascii.eqb c "/")) stem = true ->
  allChars (fun c => negb (Ascii.eqb c ".")) stem = true ->
  String.eqb stem EmptyString = false ->
  Uuid.wellFormed id = true ->
  ext = "jpg" \/ ext = "mp4" ->
  Js.includes "/" (stem ++ id ++ "." ++ ext) = false
  /\ Js.includes ".." (stem ++ id ++ "." ++ ext) = false
  /\ JsMore.startsWith "/" (stem ++ id ++ "." ++ ext) = false
  /\ namePattern (stem ++ id ++ "." ++ ext) = true.
Proof.
  intros Hname Hslash Hdot Hne Hid Hext. unfold Uuid.wellFormed in Hid.
  pose proof (allChars_impl _ _ _ uuid_char_is_name_char Hid) as Hid1.
  pose proof (allChars_impl _ _ _ uuid_char_is_no_slash Hid) as Hid2.
  pose proof (allChars_impl _ _ _ uuid_char_is_no_dot Hid) as Hid3.
  assert (Hfirst : exists c s, stem = String c s
                               /\ negb (Ascii.eqb c "/") = true).
  { destruct stem as [|c s]; [discriminate Hne|]. exists c, s.
    cbn [allChars] in Hslash. apply andb_true_iff in Hslash. tauto. }
  repeat split.
  - rewrite (includes_past _ _ _ _ Hslash), (includes_past _ _ _ _ Hid2).
    destruct Hext as [-> | ->]; reflexivity.
  - rewrite (includes_past _ _ _ _ Hdot), (includes_past _ _ _ _ Hid3).
    destruct Hext as [-> | ->]; reflexivity.
  - destruct Hfirst as [c [s [-> Hc]]]. unfold JsMore.startsWith.
    cbn [append String.prefix]. apply negb_true_iff in Hc.
    destruct (ascii_dec "/" c) as [<-|_]; [discriminate Hc | reflexivity].
  - unfold namePattern. rewrite !allChars_app, Hname, Hid1.
    destruct Hfirst as [c [s [-> _]]]. cbn [append String.eqb negb andb].
    destruct Hext as [-> | ->]; reflexivity.
Qed.

End DeleteFacts.

Module DeleteExtras.

Import Server DeleteFacts.



(** X24.  Every file the Instagram service makes for a request the
    download route let through can be deleted by its name: with UUIDs in
    canonical form, the name of a returned manifest passes both tests of
    the delete route, which then checks and unlinks exactly the manifest's
    local path. *)
Theorem created_file_can_be_deleted
        nodeEnv body u ct dir env acquired st m st' :
  check body = Call InstagramService u ct ->
  Uuid.wellFormed (Instagram.uuid env) = true ->
  Uuid.wellFormed (Instagram.fallback_uuid env) = true ->
  Instagram.settle u ct dir env acquired st = (Ok m, st') ->
  deleteFile nodeEnv dir Done Done (Instagram.filename m)
  = (Deleted,
     [ Access (Instagram.localPath m); Unlink (Instagram.localPath m) ]).
Proof.
  intros Hcheck Hid Hfid Hsettle.
  destruct (ServerFacts.check_call _ Hcheck)
    as [p [c [_ [_ [_ [_ [_ [_ [Hallowed _]]]]]]]]].
  apply ServerFacts.arrayIncludes_In in Hallowed.
  destruct (InstagramMoreFacts.settle_filename _ _ _ _ _ _ Hsettle)
    as [_ [_ [Hpath Hname]]].
  assert (Hext : forall k : Extractor.MediaKind,
             match k with Extractor.video => "mp4" | Extractor.image => "jpg" end
             = "jpg"
             \/ match k with Extractor.video => "mp4" | Extractor.image => "jpg" end
                = "mp4")
    by (intros []; auto).
  assert (Hok : Js.includes "/" (Instagram.filename m) = false
                /\ Js.includes ".." (Instagram.filename m) = false
                /\ JsMore.startsWith "/" (Instagram.filename m) = false
                /\ namePattern (Instagram.filename m) = true).
  { destruct Hname as [-> | ->].
    - destruct Hallowed as [<-|[<-|[<-|[<-|[]]]]];
        match goal with
        | |- context [(?a ++ ?b ++ "_" ++ ?id ++ "." ++ ?e)%string] =>
            change (a ++ b ++ "_" ++ id ++ "." ++ e)%string
              with ((a ++ b ++ "_") ++ id ++ "." ++ e)%string
        end;
        apply generated_name_is_accepted; auto.
    - destruct Hallowed as [<-|[<-|[<-|[<-|[]]]]];
        match goal with
        | |- context [(?a ++ ?b ++ "_fallback_" ++ ?id ++ "." ++ ?e)%string] =>
            change (a ++ b ++ "_fallback_" ++ id ++ "." ++ e)%string
              with ((a ++ b ++ "_fallback_") ++ id ++ "." ++ e)%string
        end;
        apply generated_name_is_accepted; auto. }
  destruct Hok as [H1 [H2 [H3 H4]]].
  unfold deleteFile. rewrite H1, H2, H3, H4, Hpath. reflexivity.
Qed.

Lemma created_file_can_be_deleted_witness :
  deleteFile None Fixtures.downloads Done Done
             "instagram_story_3b241101-e2bb-4255-8caf-4136c566a962.jpg"
  = (Deleted,
     [ Access "/srv/downloads/instagram_story_3b241101-e2bb-4255-8caf-4136c566a962.jpg";
       Unlink "/srv/downloads/instagram_story_3b241101-e2bb-4255-8caf-4136c566a962.jpg" ]).
Proof.
  assert (Hc : check Bodies.story
               = Call InstagramService
                      "https://www.instagram.com/stories/someone/1/" "story")
    by (vm_compute; reflexivity).
  assert (Hs : Instagram.settle
                 "https://www.instagram.com/stories/someone/1/" "story"
                 Fixtures.downloads MoreFixtures.fine_uuid (Ok 0)
                 (Instagram.start (BrowserPool.mkPool [] [] 1 0 []))
               = (Ok (Instagram.mkManifest
                        true
                        "http://localhost:3001/downloads/instagram_story_3b241101-e2bb-4255-8caf-4136c566a962.jpg"
                        "instagram_story_3b241101-e2bb-4255-8caf-4136c566a962.jpg"
                        Extractor.image 2048
                        "/srv/downloads/instagram_story_3b241101-e2bb-4255-8caf-4136c566a962.jpg"
                        (Some "http://localhost:3001/downloads/instagram_story_3b241101-e2bb-4255-8caf-4136c566a962.jpg")
                        None),
                  snd (Instagram.settle
                         "https://www.instagram.com/stories/someone/1/" "story"
                         Fixtures.downloads MoreFixtures.fine_uuid (Ok 0)
                         (Instagram.start (BrowserPool.mkPool [] [] 1 0 [])))))
    by (vm_compute; reflexivity).
  assert (H1 : Uuid.wellFormed (Instagram.uuid MoreFixtures.fine_uuid) = true)
    by (vm_compute; reflexivity).
  assert (H2 : Uuid.wellFormed (Instagram.fallback_uuid MoreFixtures.fine_uuid)
               = true)
    by (vm_compute; reflexivity).
  exact (@created_file_can_be_deleted None _ _ _ _ _ _ _ _ _ Hc H1 H2 Hs).
Defined.

End DeleteExtras.

(** ** The Facebook service *)

Module FacebookFacts.

Import BrowserPool Extractor Instagram InstagramFacts ExtractorFacts.

Ltac unfold_fb :=
  cbv [Facebook.settle Facebook.primary Facebook.recover
       Facebook.downloadFallbackContent cleanup discard_partial
       perform stream_to emit set_browserInstance set_page
       set_downloadedFilePath with_note
       Eff.bind Eff.ret Eff.throw Eff.await Eff.modify Eff.get
       Eff.try_catch Eff.finally
       pool browserInstance page downloadedFilePath trace
       launch newPage setUserAgent setViewport goto dom uuid get
       createWriteStream write stat fallback_uuid fallback_get
       fallback_createWriteStream fallback_write fallback_stat pageClose]
    in *.

Ltac split_fb :=
  match goal with
  | H : context [match ?r with Ok _ => _ | Throw _ => _ end] |- _ =>
      is_var r; destruct r
  | H : context [match Facebook.evaluate ?d with [] => _ | _ :: _ => _ end]
    |- _ =>
      destruct (Facebook.evaluate d) as [|[? []] ?]
  | H : context [if isVideo ?c then _ else _] |- _ =>
      destruct (isVideo c)
  | H : context [match ?o with Some _ => _ | None => _ end] |- _ =>
      is_var o; destruct o
  | H : context [if ?b then _ else _] |- _ =>
      is_var b; destruct b
  end.

Lemma fb_visit_step (media : list MediaCandidate) (el : Element) :
  Facebook.visit (media, urls media) el
  = (Facebook.step media el, urls (Facebook.step media el)).
Proof.
  unfold Facebook.visit, Facebook.step, Facebook.candidate.
  destruct (sourceOf el) as [s0|]; cbn [Js.truthy]; [|reflexivity].
  destruct (String.eqb s0 EmptyString); cbn [negb andb]; [reflexivity|].
  destruct (Js.includes "fbcdn.net" _ || Js.includes "facebook.com" _);
    cbn [url]; [|reflexivity].
  destruct (has (urls media) _); cbn [negb]; [reflexivity|].
  unfold Js.push, urls. now rewrite map_app.
Qed.

Lemma fb_evaluate_fold (document : Document) :
  Facebook.evaluate document
  = fold_left Facebook.step (Facebook.matched document) [].
Proof.
  unfold Facebook.evaluate, Facebook.matched.
  assert (Hsel : forall sels st,
             fold_left (fun st selector =>
                          fold_left Facebook.visit (document selector) st)
                       sels st
             = fold_left Facebook.visit (flat_map document sels) st).
  { induction sels as [|sel sels IH]; intros st; [reflexivity|].
    cbn [fold_left flat_map]. now rewrite fold_left_app, IH. }
  assert (Hstep : forall els media,
             fold_left Facebook.visit els (media, urls media)
             = (fold_left Facebook.step els media,
                urls (fold_left Facebook.step els media))).
  { induction els as [|el els IH]; intros media; [reflexivity|].
    cbn [fold_left]. now rewrite fb_visit_step, IH. }
  rewrite Hsel. change (@nil string) with (urls []). now rewrite Hstep.
Qed.

Lemma fb_step_urls (media : list MediaCandidate) (el : Element) (u : string) :
  In u (urls (Facebook.step media el))
  <-> In u (urls media) \/ Facebook.yields u el = true.
Proof.
  unfold Facebook.step, Facebook.yields.
  destruct (Facebook.candidate el) as [c|].
  - destruct (has (urls media) (url c)) eqn:Hhas.
    + apply has_In in Hhas. split; [now left|].
      intros [H|H]; [exact H|]. apply String.eqb_eq in H. now subst.
    + unfold urls. rewrite map_app, in_app_iff. cbn.
      rewrite String.eqb_eq. tauto.
  - split; [now left | intros [H|H]; [exact H | discriminate]].
Qed.

Lemma fb_step_NoDup (media : list MediaCandidate) (el : Element) :
  NoDup (urls media) -> NoDup (urls (Facebook.step media el)).
Proof.
  intros Hnd. unfold Facebook.step.
  destruct (Facebook.candidate el) as [c|]; [|exact Hnd].
  destruct (has (urls media) (url c)) eqn:Hhas; [exact Hnd|].
  unfold urls. rewrite map_app. cbn.
  apply NoDup_rev in Hnd. rewrite <- (rev_involutive (map url media ++ _)).
  apply NoDup_rev. rewrite rev_app_distr. cbn. constructor; [|exact Hnd].
  rewrite <- in_rev. intros Hin. apply has_In in Hin.
  unfold urls in Hhas. congruence.
Qed.

Lemma fb_pass_urls (els : list Element) : forall media u,
  In u (urls (fold_left Facebook.step els media))
  <-> In u (urls media) \/ existsb (Facebook.yields u) els = true.
Proof.
  induction els as [|el l IH]; intros media u; cbn [fold_left existsb].
  - split; [now left | intros [H|H]; [exact H | discriminate]].
  - rewrite IH, fb_step_urls, orb_true_iff. tauto.
Qed.

Lemma fb_pass_NoDup (els : list Element) : forall media,
  NoDup (urls media) -> NoDup (urls (fold_left Facebook.step els media)).
Proof.
  induction els as [|el l IH]; intros media Hnd; [exact Hnd|].
  cbn [fold_left]. now apply IH, fb_step_NoDup.
Qed.

Lemma fb_primary_state target ct dir env b st r st1 :
  Facebook.primary target ct dir env (Ok b) st = (r, st1) ->
  pool st1 = pool st
  /\ browserInstance st1 = Some b
  /\ exists events, trace st1 = trace st ++ events
                    /\ forallb quiet events = true.
Proof.
  destruct env, st. unfold_fb. intros H.
  repeat split_fb; injection H as <- <-; settle_trace;
    (split; [reflexivity | split; [reflexivity|]]);
    eexists; (split; reflexivity).
Qed.

Lemma fb_primary_manifest target ct dir env acquired st m st1 :
  Facebook.primary target ct dir env acquired st = (Ok m, st1) ->
  thumbnail m = match contentType m with
                | image => Some (downloadUrl m)
                | video => None
                end
  /\ note m = None.
Proof.
  destruct env, st, acquired; unfold_fb; intros H;
    repeat split_fb; try discriminate H; injection H as <- <-;
    split; reflexivity.
Qed.

Lemma fb_fallback_state ct dir platform env st r st2 :
  Facebook.downloadFallbackContent ct dir platform env st = (r, st2) ->
  pool st2 = pool st
  /\ browserInstance st2 = browserInstance st
  /\ page st2 = page st
  /\ (exists during, trace st2 = trace st ++ EvFallback :: during
                     /\ forallb (fun e => negb (isRelease e)) during = true)
  /\ forall m, r = Ok m ->
               thumbnail m = match contentType m with
                             | image => Some (downloadUrl m)
                             | video => None
                             end.
Proof.
  destruct env, st. unfold_fb. intros H.
  repeat split_fb; injection H as <- <-; settle_trace;
    repeat (split; [reflexivity|]);
    (split; [eexists; split; reflexivity|]);
    intros m [= <-] || (intros m Hm; discriminate Hm); reflexivity.
Qed.

Lemma fb_settle_failed_primary target ct dir env acquired st e1 st1 :
  Facebook.primary target ct dir env acquired st = (Throw e1, st1) ->
  Facebook.settle target ct dir env acquired st
  = (let (rf, st2) :=
       Facebook.downloadFallbackContent ct dir "facebook" env
                                        (snd (discard_partial st1)) in
     match cleanup env st2 with
     | (Ok _, st3) =>
         (match rf with
          | Ok m => Ok (with_note m (primaryNote e1))
          | Throw _ => Throw (Facebook.bothFailed e1)
          end, st3)
     | (Throw e, st3) => (Throw e, st3)
     end).
Proof.
  intros H. unfold Facebook.settle, Facebook.recover.
  unfold Eff.finally, Eff.try_catch, Eff.bind. rewrite H.
  destruct (discard_partial_state st1) as [Hd _].
  destruct (discard_partial st1) as [r0 st1']. cbn [fst snd] in *. subst r0.
  destruct (Facebook.downloadFallbackContent ct dir "facebook" env st1')
    as [[m|e2] st2]; cbn [Eff.ret Eff.throw];
    destruct (cleanup env st2) as [[[]|e] st3]; reflexivity.
Qed.

Lemma fb_settle_returned_primary target ct dir env acquired st m st1 :
  Facebook.primary target ct dir env acquired st = (Ok m, st1) ->
  Facebook.settle target ct dir env acquired st
  = match cleanup env st1 with
    | (Ok _, st3) => (Ok m, st3)
    | (Throw e, st3) => (Throw e, st3)
    end.
Proof.
  intros H. unfold Facebook.settle, Eff.finally, Eff.try_catch. rewrite H.
  destruct (cleanup env st1) as [[[]|e] st3]; reflexivity.
Qed.

End FacebookFacts.

Module FacebookExtras.

Import BrowserPool Extractor Instagram InstagramFacts FacebookFacts.

(** X25.  The Facebook extractor lists every URL at most once: for every
    URL [u] it returns exactly one candidate of URL [u] when some matched
    element has a non-empty source that, cut at its first [?], is [u] and
    contains [fbcdn.net] or [facebook.com], and none otherwise.  Unlike the
    Instagram extractor it has no size test, so images of thumbnail size
    are returned too. *)
Theorem facebook_lists_each_url_once (document : Document) (u : string) :
  count_occ string_dec (urls (Facebook.evaluate document)) u
  = if existsb
         (fun el =>
            match sourceOf el with
            | Some s0 =>
                negb (String.eqb s0 EmptyString)
                && (Js.includes "fbcdn.net" (Js.split_head "?"%char s0)
                    || Js.includes "facebook.com" (Js.split_head "?"%char s0))
                && String.eqb (Js.split_head "?"%char s0) u
            | None => false
            end)
         (Facebook.matched document)
    then 1 else 0.
Proof.
  assert (Hy : forall el,
             Facebook.yields u el
             = match sourceOf el with
               | Some s0 =>
                   negb (String.eqb s0 EmptyString)
                   && (Js.includes "fbcdn.net" (Js.split_head "?"%char s0)
                       || Js.includes "facebook.com" (Js.split_head "?"%char s0))
                   && String.eqb (Js.split_head "?"%char s0) u
               | None => false
               end).
  { intros el. unfold Facebook.yields, Facebook.candidate.
    destruct (sourceOf el) as [s0|]; [|reflexivity].
    destruct (negb (String.eqb s0 EmptyString)
              && (Js.includes "fbcdn.net" _ || Js.includes "facebook.com" _));
      reflexivity. }
  rewrite fb_evaluate_fold.
  pose proof (fb_pass_urls (Facebook.matched document) [] u) as Hu.
  pose proof (fb_pass_NoDup (Facebook.matched document) [] (NoDup_nil _)) as Hnd.
  replace (existsb _ (Facebook.matched document))
    with (existsb (Facebook.yields u) (Facebook.matched document)).
  2:{ clear - Hy. induction (Facebook.matched document) as [|el l IH];
        [reflexivity|]. cbn [existsb]. now rewrite IH, Hy. }
  destruct (existsb (Facebook.yields u) (Facebook.matched document)).
  - apply NoDup_count_occ'; [exact Hnd|]. apply Hu. now right.
  - apply count_occ_not_In. intros Hin. apply Hu in Hin.
    destruct Hin as [[]|H]. discriminate.
Qed.

Lemma facebook_lists_each_url_once_witness :
  Facebook.evaluate Facebook.thumbnails
  = [ mkMedia "https://scontent.xx.fbcdn.net/v/t39/photo.jpg" image ]
  /\ count_occ string_dec (urls (Facebook.evaluate Facebook.thumbnails))
               "https://scontent.xx.fbcdn.net/v/t39/photo.jpg" = 1.
Proof.
  split; [vm_compute; reflexivity|].
  rewrite (facebook_lists_each_url_once
             Facebook.thumbnails
             "https://scontent.xx.fbcdn.net/v/t39/photo.jpg").
  vm_compute. reflexivity.
Defined.

(** X26.  A Facebook request that was given a handle releases it exactly
    once, as the last thing it does, on every path, as long as closing the
    page does not throw. *)
Theorem facebook_releases_handle_once target ct dir env b p :
  pageClose env = Ok tt ->
  exists events,
    trace (snd (Facebook.settle target ct dir env (Ok b) (start p)))
    = events ++ [EvRelease b]
    /\ existsb isRelease events = false
    /\ pool (snd (Facebook.settle target ct dir env (Ok b) (start p)))
       = releaseBrowser (Some b) p.
Proof.
  intros Hclose.
  destruct (Facebook.primary target ct dir env (Ok b) (start p))
    as [r st1] eqn:Hp.
  destruct (fb_primary_state _ _ _ _ _ _ Hp) as [Hpool [Hb [events [Htr Hq]]]].
  cbn [start trace app pool] in Htr, Hpool.
  destruct r as [m|e1].
  - rewrite (fb_settle_returned_primary _ _ _ _ _ _ Hp),
      (cleanup_state _ _ Hb Hclose). cbn [snd trace pool].
    exists (events ++ if page st1 then [EvPageClose] else []).
    rewrite Htr, Hpool, <- app_assoc. split; [reflexivity|split; [|reflexivity]].
    rewrite existsb_app, (quiet_no_release _ Hq). now destruct (page st1).
  - destruct (discard_partial_state st1)
      as [_ [Hdpool [Hdb [_ [unlinked [Hdtr Hdq]]]]]].
    rewrite (fb_settle_failed_primary _ _ _ _ _ _ Hp).
    destruct (Facebook.downloadFallbackContent ct dir "facebook" env
                                               (snd (discard_partial st1)))
      as [rf st2] eqn:Hf.
    destruct (fb_fallback_state _ _ _ _ _ Hf)
      as [Hfpool [Hfb [_ [[during [Hftr Hfq]] _]]]].
    assert (Hb2 : browserInstance st2 = Some b) by congruence.
    rewrite (cleanup_state _ _ Hb2 Hclose). cbn [snd trace pool].
    exists (events ++ unlinked ++ EvFallback :: during
              ++ if page st2 then [EvPageClose] else []).
    split; [|split].
    + rewrite Hftr, Hdtr, Htr, <- !app_assoc. cbn [app].
      rewrite <- !app_assoc. reflexivity.
    + rewrite !existsb_app. cbn [existsb isRelease].
      rewrite !existsb_app, (quiet_no_release _ Hq),
        (quiet_no_release _ Hdq), (no_release_forallb _ Hfq).
      now destruct (page st2).
    + rewrite Hfpool, Hdpool, Hpool. reflexivity.
Qed.

Lemma facebook_releases_handle_once_witness :
  pageClose Facebook.fine = Ok tt
  /\ exists events,
       trace (snd (Facebook.settle Facebook.post_url "video" Fixtures.downloads
                                   Facebook.fine (Ok 0)
                                   (start (mkPool [] [] 1 0 []))))
       = events ++ [EvRelease 0]
       /\ existsb isRelease events = false
       /\ pool (snd (Facebook.settle Facebook.post_url "video"
                                     Fixtures.downloads Facebook.fine (Ok 0)
                                     (start (mkPool [] [] 1 0 []))))
          = releaseBrowser (Some 0) (mkPool [] [] 1 0 []).
Proof.
  split; [reflexivity|].
  exact (@facebook_releases_handle_once
           Facebook.post_url "video" Fixtures.downloads Facebook.fine 0
           (mkPool [] [] 1 0 []) eq_refl).
Defined.

(** X27.  What the Facebook service returns or throws, with a page close
    that does not throw: the manifest of the try block, without a note; or,
    when the try block failed with [e1], the fallback's manifest noted with
    [e1]; or, when the fallback failed too, an error that names [e1] only.
    In every returned manifest the thumbnail is the served URL for an image
    and null for a video. *)
Theorem facebook_outcome target ct dir env acquired st :
  pageClose env = Ok tt ->
  fst (Facebook.settle target ct dir env acquired st)
  = match fst (Facebook.primary target ct dir env acquired st) with
    | Ok m => Ok m
    | Throw e1 =>
        match fst (Facebook.downloadFallbackContent
                     ct dir "facebook" env
                     (snd (discard_partial
                             (snd (Facebook.primary target ct dir env
                                                    acquired st)))))
        with
        | Ok fallbackResult =>
            Ok (with_note fallbackResult
                  ("Primary download failed: " ++ e1
                     ++ ". Serving fallback content.")%string)
        | Throw _ =>
            Throw ("Failed to download content from Facebook or provide fallback: "
                     ++ e1)%string
        end
    end
  /\ forall m,
       fst (Facebook.settle target ct dir env acquired st) = Ok m ->
       thumbnail m = match contentType m with
                     | image => Some (downloadUrl m)
                     | video => None
                     end.
Proof.
  intros Hclose.
  destruct (Facebook.primary target ct dir env acquired st)
    as [[m1|e1] st1] eqn:Hp; cbn [fst snd].
  - rewrite (fb_settle_returned_primary _ _ _ _ _ _ Hp).
    pose proof (cleanup_ok env st1 Hclose) as Hc.
    destruct (cleanup env st1) as [[[]|e] st3]; [|discriminate Hc].
    split; [reflexivity|]. cbn [fst]. intros m [= <-].
    exact (proj1 (fb_primary_manifest _ _ _ _ _ _ Hp)).
  - rewrite (fb_settle_failed_primary _ _ _ _ _ _ Hp).
    destruct (Facebook.downloadFallbackContent ct dir "facebook" env
                                               (snd (discard_partial st1)))
      as [rf st2] eqn:Hf.
    pose proof (cleanup_ok env st2 Hclose) as Hc.
    destruct (cleanup env st2) as [[[]|e] st3]; [|discriminate Hc].
    cbn [fst]. split; [destruct rf; reflexivity|].
    destruct (fb_fallback_state _ _ _ _ _ Hf) as [_ [_ [_ [_ Hthumb]]]].
    destruct rf as [m2|e2]; [|discriminate].
    intros m [= <-]. specialize (Hthumb m2 eq_refl). destruct m2. exact Hthumb.
Qed.

Lemma facebook_outcome_witness :
  pageClose Facebook.fine = Ok tt
  /\ fst (Facebook.primary Facebook.post_url "video" Fixtures.downloads
                           Facebook.fine (Ok 0) (start (mkPool [] [] 1 0 [])))
     = Ok (mkManifest true
                      "http://localhost:3001/downloads/facebook_video_1111.jpg"
                      "facebook_video_1111.jpg" image 2048
                      "/srv/downloads/facebook_video_1111.jpg"
                      (Some "http://localhost:3001/downloads/facebook_video_1111.jpg")
                      None)
  /\ forall m,
       fst (Facebook.settle Facebook.post_url "video" Fixtures.downloads
                            Facebook.fine (Ok 0)
                            (start (mkPool [] [] 1 0 []))) = Ok m ->
       thumbnail m = match contentType m with
                     | image => Some (downloadUrl m)
                     | video => None
                     end.
Proof.
  split; [reflexivity | split; [vm_compute; reflexivity|]].
  exact (proj2 (@facebook_outcome
                  Facebook.post_url "video" Fixtures.downloads Facebook.fine
                  (Ok 0) (start (mkPool [] [] 1 0 [])) eq_refl)).
Defined.

End FacebookExtras.

(** ** The fallback's own file *)

Module FallbackExtras.

Import BrowserPool Extractor Instagram InstagramFacts.



End FallbackExtras.

(** ** The list of downloads *)

Module AppExtras.

Import App.

Lemma update_other target f (prev : list Download) :
  ~ In target (map id prev) -> update target f prev = prev.
Proof.
  unfold update. induction prev as [|d l IH]; [reflexivity|].
  cbn [map In]. intros H.
  destruct (String.eqb_spec (id d) target) as [E|_]; [tauto|].
  rewrite IH by tauto. reflexivity.
Qed.

(** X29.  With an id no entry of the list has yet, [addDownload] puts one
    new entry at the head and leaves every other entry as it was: the new
    entry is [ready] with progress 100 when [requestDownload] returns, and
    [error] with the thrown message when it throws. *)
Theorem addDownload_changes_only_its_entry
        now target platformName kind answer (prev : list Download) :
  ~ In now (map id prev) ->
  exists d,
    addDownload now target platformName kind answer prev = d :: prev
    /\ id d = now
    /\ match Api.requestDownload answer with
       | Ok _ => status d = ready /\ progress d = 100 /\ error d = None
       | Throw text => status d = errored /\ error d = Some text
       end.
Proof.
  intros Hfresh. unfold addDownload.
  destruct (Api.requestDownload answer) as [result|text];
    unfold update; cbn [map id]; rewrite !String.eqb_refl;
    fold (update now toProcessing prev);
    rewrite (@update_other now toProcessing prev Hfresh).
  - fold (update now (toReady result) prev).
    rewrite (@update_other now (toReady result) prev Hfresh).
    eexists. split; [reflexivity|]. destruct result; repeat split.
  - fold (update now (toError text) prev).
    rewrite (@update_other now (toError text) prev Hfresh).
    eexists. split; [reflexivity|]. repeat split.
Qed.

Lemma addDownload_changes_only_its_entry_witness :
  exists d,
    addDownload "1700000000000" "https://www.instagram.com/p/Cabc123/"
                "instagram" "post" (Throw "Failed to fetch") []
    = [d]
    /\ id d = "1700000000000"
    /\ status d = errored /\ error d = Some "Failed to fetch".
Proof.
  exact (@addDownload_changes_only_its_entry
           "1700000000000" "https://www.instagram.com/p/Cabc123/"
           "instagram" "post" (Throw "Failed to fetch") []
           (fun H : False => H)).
Defined.



End AppExtras.
